(** * ProductSettingsDialog: the edit session, the focus dispatch and the
      settings store of the product-settings dialog

    A shallow embedding of the [ProductSettingsDialog] component (the
    keypress handler, [startEditing], [commitEdit], [saveSettings],
    [handleSettingSelect] and the load effect) together with the properties
    the specification states about them.  One key event or row activation is
    one step on the [useState] cells of the component; what the component
    does to its surroundings ([onSelect], [console.error], the file system)
    is returned with the new state.

    JavaScript strings are sequences of UTF-16 code units; the component
    addresses them by code point through [cpLen] and [cpSlice], except in
    the test [ch.length === 1] of the single-character path, which counts
    code units.  The model keeps both views. *)

From Stdlib Require Import ZArith Lia Bool.
From stdpp Require Import base list strings gmap pretty.

Local Open Scope Z_scope.

(** ** JavaScript strings *)

(** A JavaScript string: its UTF-16 code units, each in [0, 65535]. *)
Definition jsstring : Type := list Z.

(** An ASCII literal of the source as a JavaScript string. *)
Definition js (s : string) : jsstring :=
  (λ a, Z.of_nat (Ascii.nat_of_ascii a)) <$> String.list_ascii_of_string s.

(** [s.length]: the number of code units. *)
Definition js_length (s : jsstring) : Z := Z.of_nat (length s).

(** Truthiness of a string: the empty string is the only falsy one. *)
Definition truthy (s : jsstring) : bool :=
  match s with [] => false | _ :: _ => true end.

Definition is_high_surrogate (u : Z) : bool := (0xD800 <=? u) && (u <=? 0xDBFF).
Definition is_low_surrogate (u : Z) : bool := (0xDC00 <=? u) && (u <=? 0xDFFF).
Definition is_surrogate (u : Z) : bool := (0xD800 <=? u) && (u <=? 0xDFFF).

(** ** ../utils/textUtils.js *)

(** Modelled from the spec: [toCodePoints], [cpLen] and [cpSlice] are imported
    from [../utils/textUtils.js], which is not among the sources.  The spec
    fixes them: a code point is "the atomic unit for cursor addressing and
    slicing", so [toCodePoints] is the string iterator ([Array.from(str)]): a
    high surrogate followed by a low surrogate is one element, every other
    code unit (an unpaired surrogate too) is an element of its own. *)
Fixpoint toCodePoints (s : jsstring) : list jsstring :=
  match s with
  | [] => []
  | u :: rest =>
      match rest with
      | v :: rest' =>
          if is_high_surrogate u && is_low_surrogate v
          then [u; v] :: toCodePoints rest'
          else [u] :: toCodePoints rest
      | [] => [[u]]
      end
  end.

(** [Array.prototype.slice(start, end)] on integer indices: a negative index
    counts from the end, both ends are clamped to the array, and a missing
    [end] is the length. *)
Definition js_slice {A} (l : list A) (start : Z) (end_ : option Z) : list A :=
  let len := Z.of_nat (length l) in
  let k := if start <? 0 then Z.max (len + start) 0 else Z.min start len in
  let e := match end_ with None => len | Some e => e end in
  let final := if e <? 0 then Z.max (len + e) 0 else Z.min e len in
  take (Z.to_nat (final - k)) (drop (Z.to_nat k) l).

(** Modelled from the spec: [cpLen(str)], the length of a string in code
    points (missing with [textUtils.js]). *)
Definition cpLen (s : jsstring) : Z := Z.of_nat (length (toCodePoints s)).

(** Modelled from the spec: [cpSlice(str, start, end?)], the slice of a string
    by code-point indices, joined again (missing with [textUtils.js]). *)
Definition cpSlice (s : jsstring) (start : Z) (end_ : option Z) : jsstring :=
  concat (js_slice (toCodePoints s) start end_).

(** A code point as [toCodePoints] yields it from a string of Unicode scalar
    values: one code unit that is no surrogate, or a surrogate pair. *)
Definition scalar_chunk (c : jsstring) : bool :=
  match c with
  | [u] => negb (is_surrogate u)
  | [u; v] => is_high_surrogate u && is_low_surrogate v
  | _ => false
  end.

(** A string is well formed when it has no unpaired surrogate, that is when
    it is a sequence of Unicode scalar values (the spec's "ordered codepoint
    sequence"). *)
Definition well_formed (s : jsstring) : bool := forallb scalar_chunk (toCodePoints s).

(** A code point that is a C0 control, DEL or a C1 control. *)
Definition is_control (c : jsstring) : bool :=
  match c with
  | [u] => (u <=? 0x1F) || ((0x7F <=? u) && (u <=? 0x9F))
  | _ => false
  end.

(** Modelled from the spec: a stand-in for [stripUnsafeCharacters] of
    [textUtils.js] ("strips control/unsafe characters"): it drops the control
    code points and keeps every other one.  The dialog below is parametric in
    the sanitizer; this instance only serves to run it on concrete inputs. *)
Definition stripControlCharacters (s : jsstring) : jsstring :=
  concat (filter (λ c, is_control c = false) (toCodePoints s)).

(** ** String.prototype.trim *)

(** ECMAScript WhiteSpace and LineTerminator code units. *)
Definition is_js_whitespace (u : Z) : bool :=
  ((0x09 <=? u) && (u <=? 0x0D)) || (u =? 0x20) || (u =? 0xA0) || (u =? 0x1680)
  || ((0x2000 <=? u) && (u <=? 0x200A)) || (u =? 0x2028) || (u =? 0x2029)
  || (u =? 0x202F) || (u =? 0x205F) || (u =? 0x3000) || (u =? 0xFEFF).

Fixpoint trim_start (s : jsstring) : jsstring :=
  match s with
  | u :: rest => if is_js_whitespace u then trim_start rest else s
  | [] => []
  end.

Definition trim_end (s : jsstring) : jsstring := reverse (trim_start (reverse s)).

(** [s.trim()]. *)
Definition js_trim (s : jsstring) : jsstring := trim_end (trim_start s).

(** ** Settings *)

(** [platform: 'Windows' | 'Linux'], the declared type.  The load effect
    does not check what a file holds: a platform that is neither of the two
    is outside this type and outside what is proved of it. *)
Inductive Platform : Type := Windows | Linux.

(** [interface ProductSettings]. *)
Record ProductSettings : Type := mkSettings {
  name : jsstring;
  styleReferenceUrl : jsstring;
  platform : Platform;
  modules : list jsstring;
}.

Definition DEFAULT_SETTINGS : ProductSettings :=
  {| name := js "new-project";
     styleReferenceUrl := js "";
     platform := Windows;
     modules := [] |}.

(** ** JavaScript values read from the settings file *)

(** The values [JSON.parse] returns.  An object is the list of its
    properties in source order; a later duplicate of a key wins. *)
#[warnings="-register-all"]
Inductive jsvalue : Type :=
  | JNull
  | JBool (b : bool)
  | JNum (n : Z)
  | JStr (s : jsstring)
  | JArr (items : list jsvalue)
  | JObj (props : list (jsstring * jsvalue)).

(** The index [i] as a property key. *)
Definition index_key (i : nat) : jsstring := js (pretty i).

(** The own enumerable properties that an object spread [...v] copies: the
    properties of an object, the elements of an array and the code units of
    a string under their indices, nothing for the other values. *)
Definition own_properties (v : jsvalue) : gmap jsstring jsvalue :=
  match v with
  | JObj props => foldl (λ m kv, <[kv.1 := kv.2]> m) ∅ props
  | JArr items => list_to_map (imap (λ i x, (index_key i, x)) items)
  | JStr s => list_to_map (imap (λ i u, (index_key i, JStr [u])) s)
  | _ => ∅
  end.

(** [{ ...a, ...b }]: the properties of [b] override those of [a]. *)
Definition spread (a : gmap jsstring jsvalue) (b : jsvalue) : gmap jsstring jsvalue :=
  own_properties b ∪ a.

Definition platform_value (p : Platform) : jsvalue :=
  match p with Windows => JStr (js "Windows") | Linux => JStr (js "Linux") end.

(** A [ProductSettings] value as the object it is at run time. *)
Definition settings_object (s : ProductSettings) : gmap jsstring jsvalue :=
  <[js "name" := JStr (name s)]>
  (<[js "styleReferenceUrl" := JStr (styleReferenceUrl s)]>
  (<[js "platform" := platform_value (platform s)]>
  (<[js "modules" := JArr (JStr <$> modules s)]> ∅))).

Definition as_string (v : jsvalue) : option jsstring :=
  match v with JStr s => Some s | _ => None end.

Definition as_platform (v : jsvalue) : option Platform :=
  match v with
  | JStr s =>
      if bool_decide (s = js "Windows") then Some Windows
      else if bool_decide (s = js "Linux") then Some Linux
      else None
  | _ => None
  end.

Definition as_string_array (v : jsvalue) : option (list jsstring) :=
  match v with JArr items => mapM as_string items | _ => None end.

(** The typed reading of an object: [Some] when each of the four fields of
    [ProductSettings] is present with a value of its declared type. *)
Definition as_settings (o : gmap jsstring jsvalue) : option ProductSettings :=
  n ← o !! js "name" ≫= as_string;
  u ← o !! js "styleReferenceUrl" ≫= as_string;
  p ← o !! js "platform" ≫= as_platform;
  m ← o !! js "modules" ≫= as_string_array;
  Some {| name := n; styleReferenceUrl := u; platform := p; modules := m |}.

(** ** The environment: node:fs, node:path, JSON *)

(** A call returns normally or throws. *)
Inductive completion (A : Type) : Type :=
  | Normal (a : A)
  | Throws.
Arguments Normal {A} a.
Arguments Throws {A}.

(** The file system and the built-ins the dialog calls, over a type [W] of
    file-system states.  A writing call returns the state it leaves behind
    whether it throws or not.  [existsSync] never throws.  [readFileSync]
    reads as ['utf-8'], [mkdirSync_recursive] is [mkdirSync(dir, { recursive:
    true })], and [JSON_stringify s] is [JSON.stringify(s, null, 2)]. *)
Class NodeEnv (W : Type) : Type := {
  path_join : list jsstring → jsstring;
  existsSync : W → jsstring → bool;
  readFileSync : W → jsstring → completion jsstring;
  mkdirSync_recursive : W → jsstring → completion unit * W;
  writeFileSync : W → jsstring → jsstring → completion unit * W;
  JSON_parse : jsstring → completion jsvalue;
  JSON_stringify : ProductSettings → jsstring;
}.

(** What the dialog does to its surroundings: a call of the [onSelect] prop
    ([None] is [undefined]) or a line on [console.error]. *)
Inductive Effect : Type :=
  | OnSelect (result : option ProductSettings)
  | ConsoleError (message : jsstring).

(** ** The dialog state *)

Inductive FocusMode : Type := FocusSettings | FocusActions.

(** ['name'] of [type EditingField = 'name' | null]; [null] is [None]. *)
Inductive EditingFieldName : Type := FieldName.

(** The [useState] cells of the component. *)
Record DialogState : Type := mkState {
  settings : ProductSettings;
  focusMode : FocusMode;
  actionIndex : Z;
  editingField : option EditingFieldName;
  editBuffer : jsstring;
  editCursorPos : Z;
}.

Definition setSettings (f : ProductSettings → ProductSettings) (st : DialogState) : DialogState :=
  mkState (f (settings st)) (focusMode st) (actionIndex st)
          (editingField st) (editBuffer st) (editCursorPos st).

Definition setFocusMode (f : FocusMode → FocusMode) (st : DialogState) : DialogState :=
  mkState (settings st) (f (focusMode st)) (actionIndex st)
          (editingField st) (editBuffer st) (editCursorPos st).

Definition setActionIndex (i : Z) (st : DialogState) : DialogState :=
  mkState (settings st) (focusMode st) i
          (editingField st) (editBuffer st) (editCursorPos st).

Definition setEditingField (f : option EditingFieldName) (st : DialogState) : DialogState :=
  mkState (settings st) (focusMode st) (actionIndex st)
          f (editBuffer st) (editCursorPos st).

Definition setEditBuffer (f : jsstring → jsstring) (st : DialogState) : DialogState :=
  mkState (settings st) (focusMode st) (actionIndex st)
          (editingField st) (f (editBuffer st)) (editCursorPos st).

Definition setEditCursorPos (f : Z → Z) (st : DialogState) : DialogState :=
  mkState (settings st) (focusMode st) (actionIndex st)
          (editingField st) (editBuffer st) (f (editCursorPos st)).

(** The state of the first render: the [useState] initial values. *)
Definition initial_state : DialogState :=
  mkState DEFAULT_SETTINGS FocusSettings 0 None [] 0.

(** [if (editingField)]: an edit session is open. *)
Definition editing (st : DialogState) : bool :=
  match editingField st with Some _ => true | None => false end.

(** A key event of [useKeypress]: [name], [paste] and [sequence].  The names
    the handler compares with are ASCII literals; a key without a name has the
    empty one, which equals none of them. *)
Record Key : Type := mkKey {
  key_name : string;
  key_paste : bool;
  key_sequence : jsstring;
}.

(** ** The component *)

Section Dialog.

(** [stripUnsafeCharacters] of [../utils/textUtils.js] is not among the
    sources: the component is modelled for an arbitrary sanitizer. *)
Variable stripUnsafeCharacters : jsstring → jsstring.

Context {W : Type} `{!NodeEnv W}.

(** The [useEffect] that loads the settings on mount.  [Some o] is the call
    [setSettings(o)]; [None] leaves the settings as they are. *)
Definition loadSettings (w : W) (workingDirectory : jsstring)
  : option (gmap jsstring jsvalue) * list Effect :=
  let settingsPath :=
    path_join [workingDirectory; js ".aaagent"; js "product-settings.json"] in
  if existsSync w settingsPath then
    match readFileSync w settingsPath with
    | Normal content =>
        match JSON_parse content with
        | Normal loaded =>
            (Some (spread (settings_object DEFAULT_SETTINGS) loaded), [])
        | Throws => (None, [ConsoleError (js "Failed to load product settings:")])
        end
    | Throws => (None, [ConsoleError (js "Failed to load product settings:")])
    end
  else (None, []).

Definition startEditing (field : option EditingFieldName) (initial : jsstring)
    (st : DialogState) : DialogState :=
  setEditCursorPos (λ _, cpLen initial)
    (setEditBuffer (λ _, initial)
      (setEditingField field st)).

(** The three resets that close a session. *)
Definition closeSession (st : DialogState) : DialogState :=
  setEditCursorPos (λ _, 0)
    (setEditBuffer (λ _, [])
      (setEditingField None st)).

Definition commitEdit (st : DialogState) : DialogState :=
  match editingField st with
  | None => st
  | Some field =>
      let trimmed := js_trim (editBuffer st) in
      if negb (truthy trimmed) then closeSession st
      else
        let st1 :=
          match field with
          | FieldName =>
              setSettings (λ prev, mkSettings trimmed (styleReferenceUrl prev)
                                              (platform prev) (modules prev)) st
          end in
        closeSession st1
  end.

(** [saveSettings]: the [try] block and its [catch].  [onSelect] is the
    caller's callback; its call is recorded and it returns normally. *)
Definition saveSettings (w : W) (workingDirectory : jsstring) (st : DialogState)
  : W * list Effect :=
  let aaagentDir := path_join [workingDirectory; js ".aaagent"] in
  let settingsPath := path_join [aaagentDir; js "product-settings.json"] in
  let failed := [ConsoleError (js "Failed to save product settings:"); OnSelect None] in
  let made :=
    if negb (existsSync w aaagentDir) then mkdirSync_recursive w aaagentDir
    else (Normal (), w) in
  match made with
  | (Throws, w1) => (w1, failed)
  | (Normal _, w1) =>
      match writeFileSync w1 settingsPath (JSON_stringify (settings st)) with
      | (Throws, w2) => (w2, failed)
      | (Normal _, w2) => (w2, [OnSelect (Some (settings st))])
      end
  end.

(** The handler registered with [useKeypress]: one key event against the
    state of the current render. *)
Definition handleKeypress (w : W) (workingDirectory : jsstring)
    (st : DialogState) (key : Key) : W * DialogState * list Effect :=
  let name := key_name key in
  let editCursorPos := editCursorPos st in
  if editing st then
    if key_paste key && truthy (key_sequence key) then
      let pasted := stripUnsafeCharacters (key_sequence key) in
      if truthy pasted then
        let st1 := setEditBuffer (λ b,
                     let before := cpSlice b 0 (Some editCursorPos) in
                     let after := cpSlice b editCursorPos None in
                     before ++ pasted ++ after) st in
        (w, setEditCursorPos (λ pos, pos + cpLen pasted) st1, [])
      else (w, st, [])
    else if String.eqb name "backspace" && (0 <? editCursorPos) then
      let st1 := setEditBuffer (λ b,
                   let before := cpSlice b 0 (Some (editCursorPos - 1)) in
                   let after := cpSlice b editCursorPos None in
                   before ++ after) st in
      (w, setEditCursorPos (λ pos, pos - 1) st1, [])
    else if String.eqb name "delete" && (editCursorPos <? cpLen (editBuffer st)) then
      (w, setEditBuffer (λ b,
            let before := cpSlice b 0 (Some editCursorPos) in
            let after := cpSlice b (editCursorPos + 1) None in
            before ++ after) st, [])
    else if String.eqb name "escape" then (w, closeSession st, [])
    else if String.eqb name "return" then (w, commitEdit st, [])
    else if String.eqb name "left" then
      (w, setEditCursorPos (λ pos, Z.max 0 (pos - 1)) st, [])
    else if String.eqb name "right" then
      (w, setEditCursorPos (λ pos, Z.min (cpLen (editBuffer st)) (pos + 1)) st, [])
    else if String.eqb name "home" then (w, setEditCursorPos (λ _, 0) st, [])
    else if String.eqb name "end" then
      (w, setEditCursorPos (λ _, cpLen (editBuffer st)) st, [])
    else
      let ch := stripUnsafeCharacters (key_sequence key) in
      if js_length ch =? 1 then
        let st1 := setEditBuffer (λ b,
                     let before := cpSlice b 0 (Some editCursorPos) in
                     let after := cpSlice b editCursorPos None in
                     before ++ ch ++ after) st in
        (w, setEditCursorPos (λ pos, pos + 1) st1, [])
      else (w, st, [])
  else if String.eqb name "tab" then
    (w, setFocusMode (λ prev, match prev with
                              | FocusSettings => FocusActions
                              | FocusActions => FocusSettings
                              end) st, [])
  else if String.eqb name "escape" then (w, st, [OnSelect None])
  else
    match focusMode st with
    | FocusActions =>
        if String.eqb name "left" || String.eqb name "h" then
          (w, setActionIndex 0 st, [])
        else if String.eqb name "right" || String.eqb name "l" then
          (w, setActionIndex 1 st, [])
        else if String.eqb name "return" then
          if actionIndex st =? 0 then
            let '(w', effects) := saveSettings w workingDirectory st in
            (w', st, effects)
          else (w, st, [OnSelect None])
        else (w, st, [])
    | FocusSettings => (w, st, [])
    end.

(** [modules.includes(m) ? modules.filter((x) => x !== m) : [...modules, m]]. *)
Definition toggleModule (m : jsstring) (modules : list jsstring) : list jsstring :=
  if bool_decide (m ∈ modules) then filter (λ x, x ≠ m) modules
  else modules ++ [m].

Definition withPlatform (p : Platform) (prev : ProductSettings) : ProductSettings :=
  mkSettings (name prev) (styleReferenceUrl prev) p (modules prev).

Definition withModules (f : list jsstring → list jsstring) (prev : ProductSettings)
  : ProductSettings :=
  mkSettings (name prev) (styleReferenceUrl prev) (platform prev) (f (modules prev)).

(** The [onSelect] handler of the settings list: a row is activated. *)
Definition handleSettingSelect (value : string) (st : DialogState) : DialogState :=
  if editing st then st
  else if String.eqb value "name" then
    startEditing (Some FieldName) (name (settings st)) st
  else if String.eqb value "platform-windows" then
    setSettings (withPlatform Windows) st
  else if String.eqb value "platform-linux" then
    setSettings (withPlatform Linux) st
  else if String.eqb value "module-sqlite" then
    setSettings (withModules (toggleModule (js "sqlite"))) st
  else if String.eqb value "module-i18n" then
    setSettings (withModules (toggleModule (js "i18n"))) st
  else st.

End Dialog.

(** A run of key events in which the component renders again after every
    key: each key is handled by the handler of the render that follows the
    previous key, so that what the handler reads and what its updaters
    receive are the same state.  Keys that are handled within one render are
    [handleBatch] below. *)
Fixpoint handleKeys {W : Type} `{!NodeEnv W} (strip : jsstring → jsstring)
    (w : W) (workingDirectory : jsstring) (st : DialogState) (keys : list Key)
    : W * DialogState * list Effect :=
  match keys with
  | [] => (w, st, [])
  | key :: rest =>
      let '(w1, st1, effects1) := handleKeypress strip w workingDirectory st key in
      let '(w2, st2, effects2) := handleKeys strip w1 workingDirectory st1 rest in
      (w2, st2, effects1 ++ effects2)
  end.

(** The settings of the first render that follows the load effect, read
    at their declared type: the defaults when [setSettings] was not called. *)
Definition settings_after_load {W : Type} `{!NodeEnv W} (w : W)
    (workingDirectory : jsstring) : option ProductSettings :=
  match (loadSettings w workingDirectory).1 with
  | None => Some DEFAULT_SETTINGS
  | Some o => as_settings o
  end.

(** The calls of [onSelect] among the effects of a step. *)
Definition onSelect_calls (effects : list Effect) : list (option ProductSettings) :=
  omap (λ e, match e with OnSelect r => Some r | ConsoleError _ => None end) effects.

(** What [saveSettings] relies on from the file system: a directory that was
    made exists, and a file that was written holds what was written and leaves
    what existed in place. *)
Class NodeEnvLaws (W : Type) `{!NodeEnv W} : Prop := {
  mkdirSync_exists (w w' : W) (dir : jsstring) :
    mkdirSync_recursive w dir = (Normal (), w') → existsSync w' dir = true;
  writeFileSync_read (w w' : W) (file content : jsstring) :
    writeFileSync w file content = (Normal (), w') →
    readFileSync w' file = Normal content;
  writeFileSync_keeps (w w' : W) (file content other : jsstring) :
    writeFileSync w file content = (Normal (), w') →
    existsSync w other = true → existsSync w' other = true;
}.

(** ** An environment in memory

    Directories, files and a switch that makes every write fail, to run the
    component on concrete inputs. *)
Record MemFS : Type := mkMemFS {
  mem_dirs : list jsstring;
  mem_files : gmap jsstring jsstring;
  mem_writable : bool;
}.

(** The text [{"platform":"Linux"}]. *)
Definition linux_only_text : jsstring :=
  [123; 34; 112; 108; 97; 116; 102; 111; 114; 109; 34; 58;
   34; 76; 105; 110; 117; 120; 34; 125].

(** A parser that knows one text and rejects every other. *)
Definition mem_parse (text : jsstring) : completion jsvalue :=
  if bool_decide (text = linux_only_text)
  then Normal (JObj [(js "platform", JStr (js "Linux"))])
  else Throws.

(** A serializer that writes the four fields on four lines. *)
Definition mem_stringify (s : ProductSettings) : jsstring :=
  name s ++ [10] ++ styleReferenceUrl s ++ [10]
  ++ match platform s with Windows => js "Windows" | Linux => js "Linux" end ++ [10]
  ++ concat ((λ m, m ++ [44]) <$> modules s).

Definition mem_join (segments : list jsstring) : jsstring :=
  match segments with
  | [] => js "."
  | first :: others => first ++ concat ((λ seg, 47 :: seg) <$> others)
  end.

#[global] Instance MemEnv : NodeEnv MemFS := {
  path_join := mem_join;
  existsSync w p := bool_decide (p ∈ mem_dirs w) || bool_decide (is_Some (mem_files w !! p));
  readFileSync w p :=
    match mem_files w !! p with Some c => Normal c | None => Throws end;
  mkdirSync_recursive w p :=
    if mem_writable w
    then (Normal (), mkMemFS (p :: mem_dirs w) (mem_files w) true)
    else (Throws, w);
  writeFileSync w p c :=
    if mem_writable w
    then (Normal (), mkMemFS (mem_dirs w) (<[p := c]> (mem_files w)) true)
    else (Throws, w);
  JSON_parse := mem_parse;
  JSON_stringify := mem_stringify;
}.

(** An empty, writable file system. *)
Definition empty_fs : MemFS := mkMemFS [] ∅ true.

(** A file system whose settings file under [/proj] holds [{"platform":"Linux"}]. *)
Definition linux_fs : MemFS :=
  mkMemFS [js "/proj"; js "/proj/.aaagent"]
          {[ js "/proj/.aaagent/product-settings.json" := linux_only_text ]} true.

(** A file system whose settings file under [/proj] holds text that does not
    parse. *)
Definition garbled_fs : MemFS :=
  mkMemFS [js "/proj"; js "/proj/.aaagent"]
          {[ js "/proj/.aaagent/product-settings.json" := js "{oops" ]} true.

(** An empty file system on which every write fails. *)
Definition readonly_fs : MemFS := mkMemFS [] ∅ false.

(** [key.paste && key.sequence]: a paste event that carries a payload. *)
Definition is_paste (key : Key) : bool := key_paste key && truthy (key_sequence key).

(** The key is none of those the editing mode handles by name. *)
Definition unnamed_key (key : Key) : Prop :=
  key_name key ∉ ["backspace"; "delete"; "escape"; "return";
                  "left"; "right"; "home"; "end"]%string.

(** A backspace event. *)
Definition is_backspace (key : Key) : Prop :=
  key_name key = "backspace" ∧ is_paste key = false.

(** A key that is not a paste. *)
Definition plain_key (name : string) (sequence : jsstring) : Key :=
  mkKey name false sequence.

(** A paste event with its payload. *)
Definition paste_key (sequence : jsstring) : Key := mkKey "" true sequence.

(** An open session on the name field, with the given buffer and cursor,
    over the default settings. *)
Definition editing_state (buffer : jsstring) (cursor : Z) : DialogState :=
  mkState DEFAULT_SETTINGS FocusSettings 0 (Some FieldName) buffer cursor.

(** U+1F600, a code point outside the Basic Multilingual Plane: two code
    units. *)
Definition grinning_face : jsstring := [0xD83D; 0xDE00].

Definition project_dir : jsstring := js "/proj".

(** The settings a file with [modules: ["i18n", "i18n"]] loads to, in
    navigating mode. *)
Definition duplicated_modules_state : DialogState :=
  mkState (mkSettings (js "new-project") [] Windows [js "i18n"; js "i18n"])
          FocusSettings 0 None [] 0.

(** ** Events and the edit-session invariant *)

(** What the dialog reacts to: a key event of [useKeypress], or the
    activation of a row of the settings list ([onSelect] of the
    [RadioButtonSelect]). *)
Inductive Event : Type :=
  | KeyEvent (key : Key)
  | SelectEvent (value : string).

Definition dispatch {W : Type} `{!NodeEnv W} (strip : jsstring → jsstring)
    (w : W) (workingDirectory : jsstring) (st : DialogState) (ev : Event)
    : W * DialogState * list Effect :=
  match ev with
  | KeyEvent key => handleKeypress strip w workingDirectory st key
  | SelectEvent value => (w, handleSettingSelect value st, [])
  end.

(** An editing field is set. *)
Definition field_set (st : DialogState) : Prop := editingField st ≠ None.

(** A session is open: the component is in editing mode, [if (editingField)]. *)
Definition session_open (st : DialogState) : Prop := editing st = true.

Definition cursor_in_bounds (st : DialogState) : Prop :=
  0 ≤ editCursorPos st ≤ cpLen (editBuffer st).

Definition session_invariant (st : DialogState) : Prop :=
  (field_set st ↔ session_open st) ∧ cursor_in_bounds st.

(** The sanitizer hands the event's text over as a sequence of Unicode
    scalar values. *)
Definition sanitized_well_formed (strip : jsstring → jsstring) (ev : Event) : Prop :=
  match ev with
  | KeyEvent key => well_formed (strip (key_sequence key)) = true
  | SelectEvent _ => True
  end.

(** A run of events from a state, with a render after every event (as for
    [handleKeys]): the state it ends in. *)
Fixpoint dispatch_all {W : Type} `{!NodeEnv W} (strip : jsstring → jsstring)
    (w : W) (workingDirectory : jsstring) (st : DialogState) (evs : list Event)
    : DialogState :=
  match evs with
  | [] => st
  | ev :: rest =>
      let '(w1, st1, _) := dispatch strip w workingDirectory st ev in
      dispatch_all strip w1 workingDirectory st1 rest
  end.

(** The number of occurrences of [m] in a list of modules. *)
Definition occurrences (m : jsstring) (l : list jsstring) : nat :=
  length (filter (λ x, x = m) l).

(** ** Rendering *)

(** [renderFieldValue(value, isEditing)].  [inverse] is [chalk.inverse], and
    [cursorVisible] is the [useState] cell that the blink effect flips. *)
Definition renderFieldValue (inverse : jsstring → jsstring) (cursorVisible : bool)
    (st : DialogState) (value : jsstring) (isEditing : bool) : jsstring :=
  let editCursorPos := editCursorPos st in
  let editBuffer := editBuffer st in
  if isEditing then
    if cursorVisible && (editCursorPos <? cpLen editBuffer) then
      let before := cpSlice editBuffer 0 (Some editCursorPos) in
      let at_ := cpSlice editBuffer editCursorPos (Some (editCursorPos + 1)) in
      let after := cpSlice editBuffer (editCursorPos + 1) None in
      before ++ inverse at_ ++ after
    else if cursorVisible && (cpLen editBuffer <=? editCursorPos) then
      editBuffer ++ inverse (js " ")
    else editBuffer
  else value.

(** A row of the settings list. *)
Record SettingItem : Type := mkItem {
  item_label : jsstring;
  item_value : string;
  item_key : string;
}.

(** The glyphs of the labels: U+25CF and U+25CB for the radio rows, U+2611
    and U+2610 for the check boxes. *)
Definition radio_glyph (selected : bool) : jsstring :=
  if selected then [0x25CF] else [0x25CB].

Definition checkbox_glyph (checked : bool) : jsstring :=
  if checked then [0x2611] else [0x2610].

Definition is_Windows (p : Platform) : bool :=
  match p with Windows => true | Linux => false end.

Definition is_Linux (p : Platform) : bool :=
  match p with Linux => true | Windows => false end.

(** [settingItems]: the rows, rebuilt from the state. *)
Definition settingItems (inverse : jsstring → jsstring) (cursorVisible : bool)
    (st : DialogState) : list SettingItem :=
  [ mkItem (match editingField st with
            | Some FieldName =>
                js "Product Name: "
                ++ renderFieldValue inverse cursorVisible st (name (settings st)) true
            | None => js "Product Name: " ++ name (settings st)
            end) "name" "name";
    mkItem (js "Platform: Windows " ++ radio_glyph (is_Windows (platform (settings st))))
           "platform-windows" "platform-windows";
    mkItem (js "Platform: Linux " ++ radio_glyph (is_Linux (platform (settings st))))
           "platform-linux" "platform-linux";
    mkItem (checkbox_glyph (bool_decide (js "sqlite" ∈ modules (settings st)))
            ++ js " Module: SQLite")
           "module-sqlite" "module-sqlite";
    mkItem (checkbox_glyph (bool_decide (js "i18n" ∈ modules (settings st)))
            ++ js " Module: i18n (English & Chinese)")
           "module-i18n" "module-i18n" ].

(** ** useProductSettingsCommand *)

(** The two callbacks of the hook, on its [useState(false)] cell. *)
Definition openProductSettingsDialog (isProductSettingsDialogOpen : bool) : bool := true.

Definition closeProductSettingsDialog (isProductSettingsDialogOpen : bool) : bool := false.

Inductive HookCall : Type := CallOpen | CallClose.

Definition hookCall (isOpen : bool) (c : HookCall) : bool :=
  match c with
  | CallOpen => openProductSettingsDialog isOpen
  | CallClose => closeProductSettingsDialog isOpen
  end.

(** The cell after a sequence of calls, from its initial value. *)
Definition hookRun (calls : list HookCall) : bool := foldl hookCall false calls.

(** ** initProductCommand *)

Inductive MessageType : Type := MessageError | MessageInfo.

(** The values of [SlashCommandActionReturn] that the commands return. *)
Inductive SlashCommandActionReturn : Type :=
  | ReturnMessage (messageType : MessageType) (content : jsstring)
  | ReturnSubmitPrompt (content : jsstring)
  | ReturnDialog (dialog : jsstring).

(** An item handed to [context.ui.addItem], with its timestamp. *)
Record UiItem : Type := mkUiItem {
  ui_type : string;
  ui_text : jsstring;
  ui_timestamp : Z;
}.

(** The [action] of [initProductCommand].  [config] is
    [context.services.config], reduced to what [getTargetDir()] returns;
    [prompt] is the text of the template literal and [now] is [Date.now()].
    The action is [async]: [Throws] is the rejected promise.  The result
    carries the file system it leaves and the UI items it added. *)
Definition initProductAction {W : Type} `{!NodeEnv W} (prompt : jsstring) (now : Z)
    (w : W) (config : option jsstring)
    : completion SlashCommandActionReturn * W * list UiItem :=
  match config with
  | None =>
      (Normal (ReturnMessage MessageError (js "Configuration not available.")), w, [])
  | Some targetDir =>
      let geminiMdPath := path_join [targetDir; js "GEMINI.md"] in
      if existsSync w geminiMdPath then
        (Normal (ReturnMessage MessageInfo
           (js "A GEMINI.md file already exists in this directory. No changes were made.")),
         w, [])
      else
        match writeFileSync w geminiMdPath [] with
        | (Throws, w1) => (Throws, w1, [])
        | (Normal _, w1) =>
            (Normal (ReturnSubmitPrompt prompt), w1,
             [mkUiItem "info"
                (js "Empty GEMINI.md created. Now initializing Go + React monolithic project...")
                now])
        end
  end.

(** The [action] of [productSettingsCommand]. *)
Definition productSettingsAction : SlashCommandActionReturn :=
  ReturnDialog (js "product-settings").

(** ** Runs *)

(** A run of events, with a render after every event (as for
    [handleKeys]), with what it did: the file system, the state and the
    effects in order. *)
Fixpoint dispatch_run {W : Type} `{!NodeEnv W} (strip : jsstring → jsstring)
    (w : W) (workingDirectory : jsstring) (st : DialogState) (evs : list Event)
    : W * DialogState * list Effect :=
  match evs with
  | [] => (w, st, [])
  | ev :: rest =>
      let '(w1, st1, effects1) := dispatch strip w workingDirectory st ev in
      let '(w2, st2, effects2) := dispatch_run strip w1 workingDirectory st1 rest in
      (w2, st2, effects1 ++ effects2)
  end.

(** The product name is trimmed and not empty. *)
Definition name_trimmed (s : ProductSettings) : Prop :=
  js_trim (name s) = name s ∧ name s ≠ [].

(** A session is closed in the way [commitEdit] and escape leave it. *)
Definition session_closed (st : DialogState) : Prop :=
  editingField st = None ∧ editBuffer st = [] ∧ editCursorPos st = 0.

(** A second parser and serializer for the environment in memory, which
    agree on the default settings: the parser gives back the four properties
    of the object that the serializer was given. *)
Definition record_parse (text : jsstring) : completion jsvalue :=
  if bool_decide (text = mem_stringify DEFAULT_SETTINGS)
  then Normal (JObj [(js "name", JStr (js "new-project"));
                     (js "styleReferenceUrl", JStr []);
                     (js "platform", JStr (js "Windows"));
                     (js "modules", JArr [])])
  else mem_parse text.

Definition RecordEnv : NodeEnv MemFS := {|
  path_join := mem_join;
  existsSync w p := bool_decide (p ∈ mem_dirs w) || bool_decide (is_Some (mem_files w !! p));
  readFileSync w p :=
    match mem_files w !! p with Some c => Normal c | None => Throws end;
  mkdirSync_recursive w p :=
    if mem_writable w
    then (Normal (), mkMemFS (p :: mem_dirs w) (mem_files w) true)
    else (Throws, w);
  writeFileSync w p c :=
    if mem_writable w
    then (Normal (), mkMemFS (mem_dirs w) (<[p := c]> (mem_files w)) true)
    else (Throws, w);
  JSON_parse := record_parse;
  JSON_stringify := mem_stringify;
|}.

(** ** Key events within one render *)

(** The component reads [editingField], [editBuffer], [editCursorPos],
    [focusMode], [actionIndex] and [settings] as constants of the render that
    built the handler, while an updater passed to a setter ([(b) => ...],
    [(pos) => ...], [(prev) => ...]) receives the current content of its
    cell.  When several events are handled before the component renders
    again, the two differ: [render] is the state of the render, [cells] the
    current content of the cells.  With [render = cells] these definitions
    are [commitEdit] and [handleKeypress]. *)
Definition commitEditAt (render cells : DialogState) : DialogState :=
  match editingField render with
  | None => cells
  | Some field =>
      let trimmed := js_trim (editBuffer render) in
      if negb (truthy trimmed) then closeSession cells
      else
        let cells1 :=
          match field with
          | FieldName =>
              setSettings (λ prev, mkSettings trimmed (styleReferenceUrl prev)
                                              (platform prev) (modules prev)) cells
          end in
        closeSession cells1
  end.

Definition handleKeypressAt {W : Type} `{!NodeEnv W}
    (stripUnsafeCharacters : jsstring → jsstring)
    (w : W) (workingDirectory : jsstring)
    (render cells : DialogState) (key : Key) : W * DialogState * list Effect :=
  let name := key_name key in
  let editCursorPos := editCursorPos render in
  let editBuffer := editBuffer render in
  if editing render then
    if key_paste key && truthy (key_sequence key) then
      let pasted := stripUnsafeCharacters (key_sequence key) in
      if truthy pasted then
        let cells1 := setEditBuffer (λ b,
                        let before := cpSlice b 0 (Some editCursorPos) in
                        let after := cpSlice b editCursorPos None in
                        before ++ pasted ++ after) cells in
        (w, setEditCursorPos (λ pos, pos + cpLen pasted) cells1, [])
      else (w, cells, [])
    else if String.eqb name "backspace" && (0 <? editCursorPos) then
      let cells1 := setEditBuffer (λ b,
                      let before := cpSlice b 0 (Some (editCursorPos - 1)) in
                      let after := cpSlice b editCursorPos None in
                      before ++ after) cells in
      (w, setEditCursorPos (λ pos, pos - 1) cells1, [])
    else if String.eqb name "delete" && (editCursorPos <? cpLen editBuffer) then
      (w, setEditBuffer (λ b,
            let before := cpSlice b 0 (Some editCursorPos) in
            let after := cpSlice b (editCursorPos + 1) None in
            before ++ after) cells, [])
    else if String.eqb name "escape" then (w, closeSession cells, [])
    else if String.eqb name "return" then (w, commitEditAt render cells, [])
    else if String.eqb name "left" then
      (w, setEditCursorPos (λ pos, Z.max 0 (pos - 1)) cells, [])
    else if String.eqb name "right" then
      (w, setEditCursorPos (λ pos, Z.min (cpLen editBuffer) (pos + 1)) cells, [])
    else if String.eqb name "home" then (w, setEditCursorPos (λ _, 0) cells, [])
    else if String.eqb name "end" then
      (w, setEditCursorPos (λ _, cpLen editBuffer) cells, [])
    else
      let ch := stripUnsafeCharacters (key_sequence key) in
      if js_length ch =? 1 then
        let cells1 := setEditBuffer (λ b,
                        let before := cpSlice b 0 (Some editCursorPos) in
                        let after := cpSlice b editCursorPos None in
                        before ++ ch ++ after) cells in
        (w, setEditCursorPos (λ pos, pos + 1) cells1, [])
      else (w, cells, [])
  else if String.eqb name "tab" then
    (w, setFocusMode (λ prev, match prev with
                              | FocusSettings => FocusActions
                              | FocusActions => FocusSettings
                              end) cells, [])
  else if String.eqb name "escape" then (w, cells, [OnSelect None])
  else
    match focusMode render with
    | FocusActions =>
        if String.eqb name "left" || String.eqb name "h" then
          (w, setActionIndex 0 cells, [])
        else if String.eqb name "right" || String.eqb name "l" then
          (w, setActionIndex 1 cells, [])
        else if String.eqb name "return" then
          if actionIndex render =? 0 then
            let '(w', effects) := saveSettings w workingDirectory render in
            (w', cells, effects)
          else (w, cells, [OnSelect None])
        else (w, cells, [])
    | FocusSettings => (w, cells, [])
    end.

(** The keys that one render handles, in order: the handler and what it
    reads stay those of [render], the cells move on. *)
Fixpoint handleBatch {W : Type} `{!NodeEnv W} (strip : jsstring → jsstring)
    (w : W) (workingDirectory : jsstring) (render cells : DialogState)
    (keys : list Key) : W * DialogState * list Effect :=
  match keys with
  | [] => (w, cells, [])
  | key :: rest =>
      let '(w1, cells1, effects1) :=
        handleKeypressAt strip w workingDirectory render cells key in
      let '(w2, cells2, effects2) :=
        handleBatch strip w1 workingDirectory render cells1 rest in
      (w2, cells2, effects1 ++ effects2)
  end.

(** A code point that is a C0 or a C1 control. *)
Definition is_control_but_delete (c : jsstring) : bool :=
  match c with
  | [u] => (u <=? 0x1F) || ((0x80 <=? u) && (u <=? 0x9F))
  | _ => false
  end.

(** Modelled from the spec: a second stand-in for [stripUnsafeCharacters] of
    [textUtils.js], which strips "control/unsafe characters".  The spec does
    not say whether U+007F, which the Backspace key sends, is among them:
    [stripControlCharacters] drops it with the other controls, this one keeps
    it and drops the C0 and C1 controls only. *)
Definition stripControlsKeepDelete (s : jsstring) : jsstring :=
  concat (filter (λ c, is_control_but_delete c = false) (toCodePoints s)).

(** * Properties *)

(** ** The model on concrete strings *)

Example toCodePoints_pairs :
  toCodePoints (97 :: grinning_face ++ [0xD83D; 98])
  = [[97]; grinning_face; [0xD83D]; [98]].
Proof. reflexivity. Qed.

Example cpLen_counts_code_points :
  cpLen (97 :: grinning_face) = 2 ∧ js_length (97 :: grinning_face) = 3.
Proof. split; reflexivity. Qed.

Example cpSlice_by_code_point :
  cpSlice (97 :: grinning_face ++ [98]) 1 (Some 2) = grinning_face ∧
  cpSlice (js "abc") 1 None = js "bc" ∧
  cpSlice (js "abc") (-1) None = js "c" ∧
  cpSlice (js "abc") 2 (Some 1) = [].
Proof. repeat split; reflexivity. Qed.

Example js_trim_both_ends : js_trim (9 :: js "  a b " ++ [0x3000; 10]) = js "a b".
Proof. reflexivity. Qed.

Example stripControlCharacters_keeps_text :
  stripControlCharacters (27 :: js "a" ++ [127; 7] ++ grinning_face)
  = js "a" ++ grinning_face.
Proof. reflexivity. Qed.

(** ** Code points *)

Lemma jsstring_pair_ind (P : jsstring → Prop) :
  P [] → (∀ u, P [u]) →
  (∀ u v s, P s → P (v :: s) → P (u :: v :: s)) →
  ∀ s, P s.
Proof.
  intros Hnil Hone Hstep s.
  enough (P s ∧ ∀ u, P (u :: s)) as [? _] by assumption.
  induction s as [|v s [IH1 IH2]]; split; auto.
Qed.

Lemma toCodePoints_cons2 u v s :
  toCodePoints (u :: v :: s) =
  if is_high_surrogate u && is_low_surrogate v
  then [u; v] :: toCodePoints s
  else [u] :: toCodePoints (v :: s).
Proof. reflexivity. Qed.

(** Joining the code points of a string gives the string back. *)
Lemma concat_toCodePoints s : concat (toCodePoints s) = s.
Proof.
  induction s as [|u|u v s IH1 IH2] using jsstring_pair_ind; [done..|].
  rewrite toCodePoints_cons2.
  destruct (is_high_surrogate u && is_low_surrogate v); cbn [concat app].
  - by rewrite IH1.
  - by rewrite IH2.
Qed.

Lemma not_surrogate_high u : is_surrogate u = false → is_high_surrogate u = false.
Proof. unfold is_surrogate, is_high_surrogate. intros H. apply andb_false_iff in H.
  apply andb_false_iff. destruct H as [H|H]; [left|right]; lia. Qed.

Lemma not_surrogate_low u : is_surrogate u = false → is_low_surrogate u = false.
Proof. unfold is_surrogate, is_low_surrogate. intros H. apply andb_false_iff in H.
  apply andb_false_iff. destruct H as [H|H]; [left|right]; lia. Qed.

Lemma toCodePoints_cons_plain u s :
  is_high_surrogate u = false → toCodePoints (u :: s) = [u] :: toCodePoints s.
Proof. intros H. destruct s as [|v s]; [done|]. by rewrite toCodePoints_cons2, H. Qed.

(** Scalar code points parse back as themselves, whatever follows them. *)
Lemma toCodePoints_concat cs b :
  forallb scalar_chunk cs = true →
  toCodePoints (concat cs ++ b) = cs ++ toCodePoints b.
Proof.
  induction cs as [|c cs IH]; [done|]. intros H. simpl in H.
  apply andb_true_iff in H as [Hc Hcs]. specialize (IH Hcs).
  destruct c as [|u [|v [|? ?]]]; try discriminate; simpl in Hc.
  - apply negb_true_iff, not_surrogate_high in Hc.
    cbn [concat app]. rewrite toCodePoints_cons_plain by done. by rewrite IH.
  - cbn [concat app]. rewrite toCodePoints_cons2, Hc. by rewrite IH.
Qed.

Lemma toCodePoints_app a b :
  well_formed a = true →
  toCodePoints (a ++ b) = toCodePoints a ++ toCodePoints b.
Proof.
  intros H. rewrite <- (concat_toCodePoints a) at 1. by apply toCodePoints_concat.
Qed.

Lemma cpLen_nonneg s : 0 ≤ cpLen s.
Proof. unfold cpLen. lia. Qed.

Lemma cpLen_single u : cpLen [u] = 1.
Proof. done. Qed.

(** A string may be appended to any other without changing how either is
    cut into code points, as long as it does not start with a low surrogate. *)
Lemma toCodePoints_app_plain (a t : jsstring) :
  match t with v :: _ => is_low_surrogate v = false | [] => True end →
  toCodePoints (a ++ t) = toCodePoints a ++ toCodePoints t.
Proof.
  intros Ht. induction a as [|u|u v s IH1 IH2] using jsstring_pair_ind.
  - done.
  - destruct t as [|v t]; [done|]. cbn [app].
    by rewrite toCodePoints_cons2, Ht, andb_false_r.
  - cbn [app] in *. rewrite !toCodePoints_cons2.
    destruct (is_high_surrogate u && is_low_surrogate v).
    + by rewrite IH1.
    + by rewrite IH2.
Qed.

Lemma high_not_low u : is_high_surrogate u = true → is_low_surrogate u = false.
Proof.
  unfold is_high_surrogate, is_low_surrogate. intros H.
  apply andb_true_iff in H as [_ H]. apply andb_false_iff. left. lia.
Qed.

(** A well-formed string does not start with a low surrogate. *)
Lemma well_formed_head v (x : jsstring) :
  well_formed (v :: x) = true → is_low_surrogate v = false.
Proof.
  unfold well_formed. destruct x as [|v' x].
  - simpl. rewrite andb_true_r. intros H. by apply not_surrogate_low, negb_true_iff.
  - rewrite toCodePoints_cons2.
    destruct (is_high_surrogate v && is_low_surrogate v') eqn:Hpair; simpl.
    + intros _. apply andb_true_iff in Hpair as [Hv _]. by apply high_not_low.
    + intros H. apply andb_true_iff in H as [H _].
      by apply not_surrogate_low, negb_true_iff.
Qed.

Lemma toCodePoints_head v (r : jsstring) :
  ∃ t cs, toCodePoints (v :: r) = (v :: t) :: cs.
Proof.
  destruct r as [|v' r]; [by exists [], []|]. rewrite toCodePoints_cons2.
  destruct (is_high_surrogate v && is_low_surrogate v'); by eexists _, _.
Qed.

(** The first [n] code points of a string, joined, are cut into the same
    code points, and so are the code points after the first [n]. *)
Lemma toCodePoints_take n : ∀ s : jsstring,
  toCodePoints (concat (take n (toCodePoints s))) = take n (toCodePoints s).
Proof.
  induction n as [|n IH]; intros s; [done|].
  destruct s as [|u [|v s]]; [done|by cbn; rewrite take_nil|].
  rewrite toCodePoints_cons2.
  destruct (is_high_surrogate u && is_low_surrogate v) eqn:Hpair.
  - cbn [take concat app]. by rewrite toCodePoints_cons2, Hpair, IH.
  - cbn [take concat app]. destruct n as [|n]; [done|].
    pose proof (IH (v :: s)) as HX.
    destruct (toCodePoints_head v s) as (t & cs & Heq). rewrite Heq in *.
    cbn [take concat app] in *. by rewrite toCodePoints_cons2, Hpair, HX.
Qed.

Lemma drop_toCodePoints n : ∀ s : jsstring,
  ∃ s', drop n (toCodePoints s) = toCodePoints s'.
Proof.
  induction n as [|n IH]; intros s; [by exists s|].
  destruct s as [|u [|v s]]; [by exists []|exists []; cbn; apply drop_nil|].
  rewrite toCodePoints_cons2.
  destruct (is_high_surrogate u && is_low_surrogate v); apply IH.
Qed.

Lemma toCodePoints_drop n (s : jsstring) :
  toCodePoints (concat (drop n (toCodePoints s))) = drop n (toCodePoints s).
Proof.
  destruct (drop_toCodePoints n s) as [s' ->]. by rewrite concat_toCodePoints.
Qed.

(** One more code unit in front makes a string at most one code point
    longer, and never shorter. *)
Lemma cpLen_cons_bounds (s : jsstring) :
  ∀ v, cpLen s ≤ cpLen (v :: s) ≤ cpLen s + 1.
Proof.
  induction s as [|x s IH]; intros v; [done|].
  unfold cpLen in *. rewrite toCodePoints_cons2.
  destruct (is_high_surrogate v && is_low_surrogate x); cbn [length].
  - specialize (IH x). lia.
  - lia.
Qed.

(** Joining two strings loses at most one code point: a high surrogate at
    the end of the first can pair with a low surrogate at the start of the
    second. *)
Lemma cpLen_app_ge (a b : jsstring) : cpLen a + cpLen b ≤ cpLen (a ++ b) + 1.
Proof.
  induction a as [|u|u v s IH1 IH2] using jsstring_pair_ind.
  - cbn [app]. change (cpLen []) with 0. lia.
  - pose proof (cpLen_cons_bounds b u). rewrite cpLen_single. cbn [app]. lia.
  - cbn [app] in *. unfold cpLen in *. rewrite !toCodePoints_cons2.
    destruct (is_high_surrogate u && is_low_surrogate v); cbn [length] in *; lia.
Qed.

(** ** Slices *)

Lemma js_slice_prefix {A} (l : list A) (e : Z) :
  0 ≤ e → js_slice l 0 (Some e) = take (Z.to_nat e) l.
Proof.
  intros He. unfold js_slice. cbn [drop Z.to_nat].
  replace (0 <? 0) with false by done.
  destruct (Z.ltb_spec e 0); [lia|].
  replace (Z.min 0 (Z.of_nat (length l))) with 0 by lia. cbn [Z.to_nat drop].
  destruct (Z.le_gt_cases e (Z.of_nat (length l))).
  - by replace (Z.min e (Z.of_nat (length l)) - 0) with e by lia.
  - replace (Z.min e (Z.of_nat (length l)) - 0) with (Z.of_nat (length l)) by lia.
    rewrite Nat2Z.id. rewrite (take_ge l (Z.to_nat e)) by lia. by apply take_ge.
Qed.

Lemma js_slice_suffix {A} (l : list A) (s : Z) :
  0 ≤ s → js_slice l s None = drop (Z.to_nat s) l.
Proof.
  intros Hs. unfold js_slice.
  destruct (Z.ltb_spec s 0); [lia|].
  destruct (Z.ltb_spec (Z.of_nat (length l)) 0); [lia|].
  replace (Z.min (Z.of_nat (length l)) (Z.of_nat (length l))) with (Z.of_nat (length l)) by lia.
  destruct (Z.le_gt_cases s (Z.of_nat (length l))).
  - replace (Z.min s (Z.of_nat (length l))) with s by lia.
    apply take_ge. rewrite length_drop. lia.
  - replace (Z.min s (Z.of_nat (length l))) with (Z.of_nat (length l)) by lia.
    rewrite Nat2Z.id. rewrite (drop_ge l (length l)) by lia.
    rewrite (drop_ge l (Z.to_nat s)) by lia. apply take_nil.
Qed.

(** ** Editing a buffer, seen on its code points *)

(** [before + x + after] of the insert paths, for a text [x] of Unicode
    scalar values and any buffer. *)
Lemma toCodePoints_insert b x p :
  well_formed x = true → x ≠ [] → 0 ≤ p →
  toCodePoints (cpSlice b 0 (Some p) ++ x ++ cpSlice b p None) =
  take (Z.to_nat p) (toCodePoints b) ++ toCodePoints x ++ drop (Z.to_nat p) (toCodePoints b).
Proof.
  intros Hx Hne Hp. unfold cpSlice.
  rewrite js_slice_prefix, js_slice_suffix by done.
  rewrite toCodePoints_app_plain.
  - by rewrite toCodePoints_take, toCodePoints_app, toCodePoints_drop.
  - destruct x as [|v x]; [done|]. by apply (well_formed_head v x).
Qed.

Lemma cpSlice_split b p :
  0 ≤ p → cpSlice b 0 (Some p) ++ cpSlice b p None = b.
Proof.
  intros Hp. unfold cpSlice. rewrite js_slice_prefix, js_slice_suffix by done.
  by rewrite <- concat_app, take_drop, concat_toCodePoints.
Qed.

Lemma cpLen_insert b x p :
  well_formed x = true → 0 ≤ p ≤ cpLen b →
  cpLen (cpSlice b 0 (Some p) ++ x ++ cpSlice b p None) = cpLen b + cpLen x.
Proof.
  intros Hx Hp. destruct x as [|v x].
  - cbn [app]. rewrite cpSlice_split by lia. unfold cpLen. simpl. lia.
  - unfold cpLen in *. rewrite toCodePoints_insert by (done || lia).
    rewrite !length_app, length_take, length_drop. lia.
Qed.

(** [before + after] of the two delete paths keeps the cursor in the buffer. *)
Lemma cpLen_remove_ge b p q :
  0 ≤ p → p < q → q ≤ cpLen b →
  p ≤ cpLen (cpSlice b 0 (Some p) ++ cpSlice b q None).
Proof.
  intros Hp Hpq Hq.
  assert (cpLen (cpSlice b 0 (Some p)) = p) as Hbefore.
  { unfold cpSlice, cpLen in *. rewrite js_slice_prefix by done.
    rewrite toCodePoints_take, length_take. lia. }
  assert (cpLen (cpSlice b q None) = cpLen b - q) as Hafter.
  { unfold cpSlice, cpLen in *. rewrite js_slice_suffix by lia.
    rewrite toCodePoints_drop, length_drop. lia. }
  destruct (decide (q = cpLen b)) as [->|Hne].
  - assert (cpSlice b (cpLen b) None = []) as ->.
    { unfold cpSlice, cpLen. rewrite js_slice_suffix by lia.
      by rewrite Nat2Z.id, drop_all. }
    rewrite app_nil_r. lia.
  - pose proof (cpLen_app_ge (cpSlice b 0 (Some p)) (cpSlice b q None)). lia.
Qed.

(** ** The edit session *)

Lemma js_length_one (s : jsstring) : (js_length s =? 1) = true → ∃ u, s = [u].
Proof.
  unfold js_length. intros H. apply Z.eqb_eq in H.
  destruct s as [|u [|v s]]; simpl in H; try lia. by exists u.
Qed.

Lemma closeSession_invariant st : session_invariant (closeSession st).
Proof.
  unfold session_invariant, field_set, session_open, cursor_in_bounds, editing.
  simpl. split; [|done]. split; [done|discriminate].
Qed.

Section Session.

Variable strip : jsstring → jsstring.
Context {W : Type} `{!NodeEnv W}.

Lemma handleKeypress_invariant (w : W) wd st key :
  well_formed (strip (key_sequence key)) = true →
  session_invariant st →
  session_invariant (handleKeypress strip w wd st key).1.2.
Proof.
  intros Hseq [Hfield [Hlo Hhi]].
  assert (session_invariant st) as Hsame by (split; [exact Hfield|by split]).
  unfold handleKeypress.
  destruct (editing st) eqn:Hed.
  - assert (∀ b c, 0 ≤ c ≤ cpLen b →
      session_invariant (mkState (settings st) (focusMode st) (actionIndex st)
                                 (editingField st) b c)) as Hkeep.
    { intros b c Hc. split; [exact Hfield|exact Hc]. }
    destruct (key_paste key && truthy (key_sequence key)).
    { destruct (truthy (strip (key_sequence key))); [|exact Hsame].
      apply Hkeep. simpl. rewrite cpLen_insert by done.
      pose proof (cpLen_nonneg (strip (key_sequence key))). lia. }
    destruct (String.eqb (key_name key) "backspace" && (0 <? editCursorPos st)) eqn:Hbs.
    { apply andb_true_iff in Hbs as [_ Hpos]. apply Z.ltb_lt in Hpos.
      apply Hkeep. simpl. split; [lia|]. apply cpLen_remove_ge; lia. }
    destruct (String.eqb (key_name key) "delete" &&
              (editCursorPos st <? cpLen (editBuffer st))) eqn:Hdel.
    { apply andb_true_iff in Hdel as [_ Hlt]. apply Z.ltb_lt in Hlt.
      apply Hkeep. simpl. split; [lia|]. apply cpLen_remove_ge; lia. }
    destruct (String.eqb (key_name key) "escape").
    { apply closeSession_invariant. }
    destruct (String.eqb (key_name key) "return").
    { cbn [fst snd]. unfold commitEdit.
      destruct (editingField st) as [[]|]; [|exact Hsame].
      destruct (negb (truthy (js_trim (editBuffer st))));
        apply closeSession_invariant. }
    destruct (String.eqb (key_name key) "left").
    { apply Hkeep; simpl; lia. }
    destruct (String.eqb (key_name key) "right").
    { apply Hkeep; simpl; lia. }
    destruct (String.eqb (key_name key) "home").
    { apply Hkeep; simpl; lia. }
    destruct (String.eqb (key_name key) "end").
    { apply Hkeep; simpl; lia. }
    destruct (js_length (strip (key_sequence key)) =? 1) eqn:Hone;
      [|exact Hsame].
    apply Hkeep. simpl. rewrite cpLen_insert by done.
    apply js_length_one in Hone as [u ->]. rewrite cpLen_single. lia.
  - assert (∀ f i, session_invariant
               (mkState (settings st) f i (editingField st) (editBuffer st)
                        (editCursorPos st))) as Hkeep.
    { intros f i. split; [exact Hfield|by split]. }
    destruct (String.eqb (key_name key) "tab"); [apply Hkeep|].
    destruct (String.eqb (key_name key) "escape"); [exact Hsame|].
    destruct (focusMode st); [exact Hsame|].
    destruct (String.eqb (key_name key) "left" || String.eqb (key_name key) "h");
      [apply Hkeep|].
    destruct (String.eqb (key_name key) "right" || String.eqb (key_name key) "l");
      [apply Hkeep|].
    destruct (String.eqb (key_name key) "return"); [|exact Hsame].
    destruct (actionIndex st =? 0); [|exact Hsame].
    destruct (saveSettings w wd st). exact Hsame.
Qed.

Lemma handleSettingSelect_invariant value st :
  session_invariant st → session_invariant (handleSettingSelect value st).
Proof.
  intros [Hfield Hc].
  assert (session_invariant st) as Hsame by by split.
  unfold handleSettingSelect.
  destruct (editing st) eqn:Hed; [exact Hsame|].
  destruct (String.eqb value "name").
  { split; [split; [done|discriminate]|].
    unfold cursor_in_bounds; simpl.
    pose proof (cpLen_nonneg (name (settings st))). lia. }
  destruct (String.eqb value "platform-windows"); [exact Hsame|].
  destruct (String.eqb value "platform-linux"); [exact Hsame|].
  destruct (String.eqb value "module-sqlite"); [exact Hsame|].
  destruct (String.eqb value "module-i18n"); [exact Hsame|].
  exact Hsame.
Qed.

End Session.

(** ** The branches of the keypress handler *)

Section Branches.

Variable strip : jsstring → jsstring.
Context {W : Type} `{!NodeEnv W}.
Variables (w : W) (wd : jsstring) (st : DialogState) (key : Key).

Lemma handleKeypress_paste :
  editing st = true → is_paste key = true →
  handleKeypress strip w wd st key =
  (w, (if truthy (strip (key_sequence key))
       then mkState (settings st) (focusMode st) (actionIndex st) (editingField st)
              (cpSlice (editBuffer st) 0 (Some (editCursorPos st))
               ++ strip (key_sequence key)
               ++ cpSlice (editBuffer st) (editCursorPos st) None)
              (editCursorPos st + cpLen (strip (key_sequence key)))
       else st), []).
Proof.
  unfold is_paste, handleKeypress. intros -> ->.
  by destruct (truthy (strip (key_sequence key))).
Qed.

Lemma handleKeypress_backspace :
  editing st = true → is_paste key = false → key_name key = "backspace" →
  0 < editCursorPos st →
  handleKeypress strip w wd st key =
  (w, mkState (settings st) (focusMode st) (actionIndex st) (editingField st)
        (cpSlice (editBuffer st) 0 (Some (editCursorPos st - 1))
         ++ cpSlice (editBuffer st) (editCursorPos st) None)
        (editCursorPos st - 1), []).
Proof.
  unfold is_paste, handleKeypress. intros -> -> -> Hpos.
  apply Z.ltb_lt in Hpos. by rewrite Hpos.
Qed.

Lemma handleKeypress_escape_editing :
  editing st = true → is_paste key = false → key_name key = "escape" →
  handleKeypress strip w wd st key = (w, closeSession st, []).
Proof. unfold is_paste, handleKeypress. by intros -> -> ->. Qed.

Lemma handleKeypress_return_editing :
  editing st = true → is_paste key = false → key_name key = "return" →
  handleKeypress strip w wd st key = (w, commitEdit st, []).
Proof. unfold is_paste, handleKeypress. by intros -> -> ->. Qed.



(** Backspace with the cursor at the start and delete with the cursor at
    the end pass their own branch and every later one, and reach the
    single-character path. *)
Lemma handleKeypress_edge_falls_through :
  editing st = true → is_paste key = false →
  (key_name key = "backspace" ∧ editCursorPos st = 0) ∨
  (key_name key = "delete" ∧ editCursorPos st = cpLen (editBuffer st)) →
  handleKeypress strip w wd st key =
  (w, (if js_length (strip (key_sequence key)) =? 1
       then mkState (settings st) (focusMode st) (actionIndex st) (editingField st)
              (cpSlice (editBuffer st) 0 (Some (editCursorPos st))
               ++ strip (key_sequence key)
               ++ cpSlice (editBuffer st) (editCursorPos st) None)
              (editCursorPos st + 1)
       else st), []).
Proof.
  unfold is_paste, handleKeypress. intros -> -> [[-> Hc]|[-> Hc]].
  - replace (0 <? editCursorPos st) with false by (symmetry; apply Z.ltb_ge; lia).
    simpl. by destruct (js_length (strip (key_sequence key)) =? 1).
  - replace (editCursorPos st <? cpLen (editBuffer st)) with false
      by (symmetry; apply Z.ltb_ge; lia).
    simpl. by destruct (js_length (strip (key_sequence key)) =? 1).
Qed.

(** The keys that the editing mode does not name reach the
    single-character path. *)
Lemma handleKeypress_character :
  editing st = true → is_paste key = false → unnamed_key key →
  handleKeypress strip w wd st key =
  (w, (if js_length (strip (key_sequence key)) =? 1
       then mkState (settings st) (focusMode st) (actionIndex st) (editingField st)
              (cpSlice (editBuffer st) 0 (Some (editCursorPos st))
               ++ strip (key_sequence key)
               ++ cpSlice (editBuffer st) (editCursorPos st) None)
              (editCursorPos st + 1)
       else st), []).
Proof.
  unfold is_paste, handleKeypress, unnamed_key. intros -> -> Hname.
  rewrite !not_elem_of_cons in Hname.
  destruct Hname as (H1 & H2 & H3 & H4 & H5 & H6 & H7 & H8 & _).
  apply String.eqb_neq in H1, H2, H3, H4, H5, H6, H7, H8.
  rewrite H1, H2, H3, H4, H5, H6, H7, H8. simpl.
  by destruct (js_length (strip (key_sequence key)) =? 1).
Qed.

(** Return on [Apply] saves; return on [Cancel] reports cancellation. *)
Lemma handleKeypress_action_row :
  editing st = false → focusMode st = FocusActions → key_name key = "return" →
  handleKeypress strip w wd st key =
  if actionIndex st =? 0
  then ((saveSettings w wd st).1, st, (saveSettings w wd st).2)
  else (w, st, [OnSelect None]).
Proof.
  unfold handleKeypress. intros -> -> ->. simpl.
  destruct (actionIndex st =? 0); [|done]. by destruct (saveSettings w wd st).
Qed.

Lemma handleKeypress_escape_navigating :
  editing st = false → key_name key = "escape" →
  handleKeypress strip w wd st key = (w, st, [OnSelect None]).
Proof. unfold handleKeypress. by intros -> ->. Qed.

End Branches.

(** ** Single characters *)

(** A sanitized input of one code unit that is no surrogate is inserted at
    the cursor as one code point, and the cursor advances by one. *)
Lemma handleKeypress_inserts_code_unit {W : Type} `{!NodeEnv W}
    (strip : jsstring → jsstring) (w : W) wd st key u :
  editing st = true → is_paste key = false → unnamed_key key →
  strip (key_sequence key) = [u] → is_surrogate u = false →
  0 ≤ editCursorPos st →
  toCodePoints (editBuffer (handleKeypress strip w wd st key).1.2) =
    take (Z.to_nat (editCursorPos st)) (toCodePoints (editBuffer st))
    ++ [[u]] ++ drop (Z.to_nat (editCursorPos st)) (toCodePoints (editBuffer st)) ∧
  editCursorPos (handleKeypress strip w wd st key).1.2 = editCursorPos st + 1.
Proof.
  intros Hed Hp Hname Hch Hu Hlo.
  rewrite handleKeypress_character by done. rewrite Hch.
  replace (js_length [u] =? 1) with true by done.
  cbn [fst snd editBuffer editCursorPos].
  split; [|done]. rewrite toCodePoints_insert; [done| |done|done].
  unfold well_formed. simpl. by rewrite Hu.
Qed.

(** A sanitized input that is one code point of two code units fails the
    test [ch.length === 1]: the key is ignored. *)
Lemma handleKeypress_ignores_surrogate_pair {W : Type} `{!NodeEnv W}
    (strip : jsstring → jsstring) (w : W) wd st key hi lo :
  editing st = true → is_paste key = false → unnamed_key key →
  strip (key_sequence key) = [hi; lo] →
  handleKeypress strip w wd st key = (w, st, []).
Proof.
  intros Hed Hp Hname Hch. rewrite handleKeypress_character by done.
  by rewrite Hch.
Qed.

(** C1 (the code departs from the claim): in editing mode, a key that is no
    paste and none of the named keys, and whose sanitized input is the single
    code point U+1F600, is not inserted: the buffer and the cursor stay as
    they were.  The claim holds for the code points of one code unit only. *)
Theorem C1_astral_code_point_not_inserted :
  editing (editing_state (js "ab") 1) = true ∧
  is_paste (plain_key "" grinning_face) = false ∧
  unnamed_key (plain_key "" grinning_face) ∧
  cpLen (stripControlCharacters (key_sequence (plain_key "" grinning_face))) = 1 ∧
  handleKeypress stripControlCharacters empty_fs project_dir
    (editing_state (js "ab") 1) (plain_key "" grinning_face)
  = (empty_fs, editing_state (js "ab") 1, []).
Proof.
  split; [done|]. split; [done|]. split.
  - unfold unnamed_key. simpl. rewrite !not_elem_of_cons.
    repeat split; try discriminate. apply not_elem_of_nil.
  - split; reflexivity.
Qed.

(** ** Cursor movement *)



(** ** Escape *)

(** C5: an escape event while a session is open closes that session only:
    the field, the buffer and the cursor are reset, the settings are the same,
    and [onSelect] is not called.  An escape event in navigating mode leaves
    the state alone and calls [onSelect] once, with [undefined]. *)
Theorem C5_escape_scopes {W : Type} `{!NodeEnv W}
    (strip : jsstring → jsstring) (w : W) wd st key :
  key_name key = "escape" →
  (editing st = true → is_paste key = false →
     handleKeypress strip w wd st key
       = (w, mkState (settings st) (focusMode st) (actionIndex st) None [] 0, []) ∧
     onSelect_calls (handleKeypress strip w wd st key).2 = []) ∧
  (editing st = false →
     handleKeypress strip w wd st key = (w, st, [OnSelect None]) ∧
     onSelect_calls (handleKeypress strip w wd st key).2 = [None]).
Proof.
  intros Hname. split.
  - intros Hed Hp. by rewrite handleKeypress_escape_editing.
  - intros Hed. by rewrite handleKeypress_escape_navigating.
Qed.

Lemma C5_escape_scopes_witness :
  handleKeypress stripControlCharacters empty_fs project_dir
    (editing_state (js "ab") 1) (plain_key "escape" [27])
  = (empty_fs, initial_state, []) ∧
  handleKeypress stripControlCharacters empty_fs project_dir
    initial_state (plain_key "escape" [27])
  = (empty_fs, initial_state, [OnSelect None]).
Proof.
  split.
  - apply (C5_escape_scopes stripControlCharacters empty_fs project_dir
             (editing_state (js "ab") 1) (plain_key "escape" [27]));
      reflexivity.
  - apply (C5_escape_scopes stripControlCharacters empty_fs project_dir
             initial_state (plain_key "escape" [27]));
      reflexivity.
Defined.

(** ** Commit *)

Lemma truthy_false (s : jsstring) : truthy s = false ↔ s = [].
Proof. by destruct s. Qed.




(** ** Backspace at the start, delete at the end *)

(** Where a backspace event with the cursor at 0, or a delete event with
    the cursor at the end, ends up: the settings, the session and the
    surroundings are left alone, and the buffer and the cursor are left alone
    exactly when the sanitized sequence of the event is not one code unit
    long; a sanitized sequence of one code unit is inserted at the cursor. *)
Lemma handleKeypress_edge_keys {W : Type} `{!NodeEnv W}
    (strip : jsstring → jsstring) (w : W) wd st key :
  editing st = true → is_paste key = false →
  (key_name key = "backspace" ∧ editCursorPos st = 0) ∨
  (key_name key = "delete" ∧ editCursorPos st = cpLen (editBuffer st)) →
  settings (handleKeypress strip w wd st key).1.2 = settings st ∧
  editingField (handleKeypress strip w wd st key).1.2 = editingField st ∧
  (handleKeypress strip w wd st key).1.1 = w ∧
  (handleKeypress strip w wd st key).2 = [] ∧
  (js_length (strip (key_sequence key)) ≠ 1 →
     handleKeypress strip w wd st key = (w, st, [])) ∧
  (js_length (strip (key_sequence key)) = 1 →
     editBuffer (handleKeypress strip w wd st key).1.2
       = cpSlice (editBuffer st) 0 (Some (editCursorPos st))
         ++ strip (key_sequence key)
         ++ cpSlice (editBuffer st) (editCursorPos st) None ∧
     editCursorPos (handleKeypress strip w wd st key).1.2 = editCursorPos st + 1).
Proof.
  intros Hed Hp Hedge. rewrite handleKeypress_edge_falls_through by done.
  destruct (Z.eqb_spec (js_length (strip (key_sequence key))) 1) as [Hone|Hone];
    cbn [fst snd settings editingField editBuffer editCursorPos];
    repeat split; try done.
Qed.

(** With a sanitizer that lets U+007F through, the Backspace key at the
    start of the buffer puts U+007F in front of the buffer and moves the
    cursor to 1. *)
Lemma backspace_at_start_inserts_delete {W : Type} `{!NodeEnv W}
    (strip : jsstring → jsstring) (w : W) wd st key :
  editing st = true → is_paste key = false → key_name key = "backspace" →
  editCursorPos st = 0 → strip (key_sequence key) = [0x7F] →
  handleKeypress strip w wd st key =
  (w, mkState (settings st) (focusMode st) (actionIndex st) (editingField st)
        (0x7F :: editBuffer st) 1, []).
Proof.
  intros Hed Hp Hname Hc Hch.
  rewrite handleKeypress_edge_falls_through by auto. rewrite Hch, Hc.
  assert (cpSlice (editBuffer st) 0 (Some 0) = []) as Hnil.
  { unfold cpSlice. by rewrite js_slice_prefix by done. }
  pose proof (cpSlice_split (editBuffer st) 0 ltac:(done)) as Hall.
  rewrite Hnil in Hall. cbn [app] in Hall. rewrite Hnil, Hall.
  reflexivity.
Qed.

(** A sanitizer that strips U+007F makes the same key a no-op, and so is the
    Delete key at the end, whose sequence is longer than one code unit. *)
Example edge_keys_without_effect :
  handleKeypress stripControlCharacters empty_fs project_dir
    (editing_state (js "ab") 0) (plain_key "backspace" [127])
  = (empty_fs, editing_state (js "ab") 0, []) ∧
  handleKeypress stripControlsKeepDelete empty_fs project_dir
    (editing_state (js "ab") 2) (plain_key "delete" (27 :: js "[3~"))
  = (empty_fs, editing_state (js "ab") 2, []).
Proof. split; reflexivity. Qed.

(** C10 (the code departs from the claim): a Backspace event with the cursor
    at position 0 is not taken by the backspace branch, whose condition asks
    for a cursor after the start, and goes on to the single-character path.
    With a sanitizer that lets the U+007F of the Backspace key through, the
    buffer "ab" becomes U+007F followed by "ab" and the cursor moves from 0 to
    1: the event is not a no-op. *)
Theorem C10_backspace_at_start_inserts_delete :
  editing (editing_state (js "ab") 0) = true ∧
  is_paste (plain_key "backspace" [0x7F]) = false ∧
  handleKeypress stripControlsKeepDelete empty_fs project_dir
    (editing_state (js "ab") 0) (plain_key "backspace" [0x7F])
  = (empty_fs, editing_state (0x7F :: js "ab") 1, []) ∧
  editing_state (0x7F :: js "ab") 1 ≠ editing_state (js "ab") 0.
Proof. repeat split; discriminate. Qed.

(** ** Paste, then backspace *)

Lemma take_drop_middle {A} (l : list A) (c : A) (r : list A) :
  take (length l) (l ++ c :: r) = l ∧ drop (S (length l)) (l ++ c :: r) = r.
Proof. induction l as [|x l [IH1 IH2]]; [done|]. simpl. split; [by f_equal|done]. Qed.

Section PasteBackspace.

Variable strip : jsstring → jsstring.
Context {W : Type} `{!NodeEnv W}.
Variables (w : W) (wd : jsstring).

(** One backspace removes the code point before the cursor. *)
Lemma backspace_removes_code_point st key xs c ys :
  editing st = true → is_backspace key →
  toCodePoints (editBuffer st) = xs ++ c :: ys →
  editCursorPos st = Z.of_nat (S (length xs)) →
  handleKeypress strip w wd st key =
  (w, mkState (settings st) (focusMode st) (actionIndex st) (editingField st)
              (concat xs ++ concat ys) (Z.of_nat (length xs)), []).
Proof.
  intros Hed [Hname Hp] Hb Hc.
  rewrite handleKeypress_backspace by (done || lia).
  f_equal. f_equal. f_equal; [|lia].
  unfold cpSlice. rewrite js_slice_prefix, js_slice_suffix by lia.
  rewrite Hb.
  replace (Z.to_nat (editCursorPos st - 1)) with (length xs) by lia.
  replace (Z.to_nat (editCursorPos st)) with (S (length xs)) by lia.
  by destruct (take_drop_middle xs c ys) as [-> ->].
Qed.

(** A text of scalar code points between a head and a tail of a string is
    cut into its own code points. *)
Lemma toCodePoints_around (b : jsstring) n mid :
  forallb scalar_chunk mid = true → mid ≠ [] →
  toCodePoints (concat (take n (toCodePoints b)) ++ concat mid
                ++ concat (drop n (toCodePoints b)))
  = take n (toCodePoints b) ++ mid ++ drop n (toCodePoints b).
Proof.
  intros Hmid Hne. rewrite toCodePoints_app_plain.
  - by rewrite toCodePoints_take, toCodePoints_concat, toCodePoints_drop.
  - destruct mid as [|c mid]; [done|]. simpl in Hmid.
    apply andb_true_iff in Hmid as [Hc _].
    destruct c as [|u [|v [|]]]; try done; cbn [concat app].
    + by apply not_surrogate_low, negb_true_iff.
    + apply andb_true_iff in Hc as [Hu _]. by apply high_not_low.
Qed.

(** As many backspaces as [mid] has code points remove [mid] from between
    the head and the tail of the buffer. *)
Lemma backspaces_remove (b : jsstring) n backs : ∀ mid st,
  editing st = true → Forall is_backspace backs →
  length backs = length mid →
  forallb scalar_chunk mid = true →
  (n ≤ length (toCodePoints b))%nat →
  editBuffer st = concat (take n (toCodePoints b)) ++ concat mid
                  ++ concat (drop n (toCodePoints b)) →
  editCursorPos st = Z.of_nat (n + length mid) →
  handleKeys strip w wd st backs =
  (w, mkState (settings st) (focusMode st) (actionIndex st) (editingField st)
              b (Z.of_nat n), []).
Proof.
  induction backs as [|key backs IH]; intros mid st Hed Hbacks Hlen Hmid Hn Hb Hc.
  - destruct mid; [|discriminate]. cbn [handleKeys concat app] in *.
    rewrite <- concat_app, take_drop, concat_toCodePoints in Hb.
    destruct st; simpl in *; subst. do 3 f_equal. lia.
  - destruct mid as [|c mid _] using rev_ind; [discriminate|].
    rewrite length_app in Hlen, Hc. simpl in Hlen, Hc.
    apply Forall_cons in Hbacks as [Hkey Hbacks].
    assert (length (take n (toCodePoints b)) = n) as Htake
      by (rewrite length_take; lia).
    cbn [handleKeys].
    rewrite (backspace_removes_code_point st key
               (take n (toCodePoints b) ++ mid) c (drop n (toCodePoints b))).
    + rewrite (IH mid); cbn [editBuffer editCursorPos settings focusMode
                             actionIndex editingField]; try done.
      * lia.
      * rewrite forallb_app in Hmid. by apply andb_true_iff in Hmid as [? _].
      * by rewrite concat_app, <- (assoc_L (++)).
      * rewrite length_app, Htake. done.
    + done.
    + done.
    + rewrite Hb, toCodePoints_around; [|done|by destruct mid].
      by rewrite <- !(assoc_L (++)).
    + rewrite length_app, Htake. lia.
Qed.

End PasteBackspace.

(** When the component renders again after every key, a paste whose
    sanitized text has N code points (Unicode scalar values: no unpaired
    surrogate) makes the buffer N code points longer and moves the cursor to
    p+N, and N backspaces after it give the original buffer and cursor
    back. *)
Lemma paste_then_backspace_rendered {W : Type} `{!NodeEnv W}
    (strip : jsstring → jsstring) (w : W) wd st key backs :
  editing st = true → is_paste key = true →
  well_formed (strip (key_sequence key)) = true →
  cursor_in_bounds st →
  Forall is_backspace backs →
  Z.of_nat (length backs) = cpLen (strip (key_sequence key)) →
  cpLen (editBuffer (handleKeypress strip w wd st key).1.2)
    = cpLen (editBuffer st) + cpLen (strip (key_sequence key)) ∧
  editCursorPos (handleKeypress strip w wd st key).1.2
    = editCursorPos st + cpLen (strip (key_sequence key)) ∧
  editBuffer (handleKeys strip w wd st (key :: backs)).1.2 = editBuffer st ∧
  editCursorPos (handleKeys strip w wd st (key :: backs)).1.2 = editCursorPos st.
Proof.
  intros Hed Hp Hx [Hlo Hhi] Hbacks Hlen.
  cbn [handleKeys]. rewrite handleKeypress_paste by done.
  destruct (truthy (strip (key_sequence key))) eqn:Ht.
  - cbn [fst snd editBuffer editCursorPos].
    split; [by apply cpLen_insert|]. split; [done|].
    set (pasted := strip (key_sequence key)) in *.
    unfold cpLen in Hhi, Hlen.
    rewrite (backspaces_remove strip w wd (editBuffer st)
               (Z.to_nat (editCursorPos st)) backs (toCodePoints pasted)).
    + cbn [fst snd editBuffer editCursorPos]. split; [done|lia].
    + done.
    + done.
    + lia.
    + done.
    + lia.
    + cbn [editBuffer]. unfold cpSlice.
      rewrite js_slice_prefix, js_slice_suffix by done.
      by rewrite concat_toCodePoints.
    + cbn [editCursorPos]. unfold cpLen. lia.
  - apply truthy_false in Ht. rewrite Ht in *.
    change (cpLen []) with 0 in *.
    destruct backs; [|simpl in Hlen; lia].
    cbn [handleKeys fst snd]. repeat split; lia.
Qed.

(** In the render that follows the last change of state the handler reads
    what its updaters receive. *)
Lemma handleKeypressAt_fresh {W : Type} `{!NodeEnv W}
    (strip : jsstring → jsstring) (w : W) wd st key :
  handleKeypressAt strip w wd st st key = handleKeypress strip w wd st key.
Proof. reflexivity. Qed.

(** The backspace branch within a render: the updater cuts the current
    buffer at the cursor of the render. *)
Lemma handleKeypressAt_backspace {W : Type} `{!NodeEnv W}
    (strip : jsstring → jsstring) (w : W) wd render cells key :
  editing render = true → is_backspace key → 0 < editCursorPos render →
  handleKeypressAt strip w wd render cells key =
  (w, mkState (settings cells) (focusMode cells) (actionIndex cells)
        (editingField cells)
        (cpSlice (editBuffer cells) 0 (Some (editCursorPos render - 1))
         ++ cpSlice (editBuffer cells) (editCursorPos render) None)
        (editCursorPos cells - 1), []).
Proof.
  unfold is_backspace, is_paste, handleKeypressAt. intros -> [-> ->] Hpos.
  apply Z.ltb_lt in Hpos. by rewrite Hpos.
Qed.

(** C3 (the code departs from the claim): a paste of N code points does make
    the buffer N code points longer and moves the cursor to p+N, but the N
    backspaces after it give the original buffer back only when the
    component renders between them.  The updater of the backspace branch
    cuts the current buffer at the cursor of the render, not at the current
    cursor: after "XY" was pasted into "ab" at 1, two backspaces handled
    within one render leave "aX" with the cursor at 1, not "ab". *)
Theorem C3_backspaces_within_one_render :
  handleKeypress stripControlCharacters empty_fs project_dir
    (editing_state (js "ab") 1) (paste_key (js "XY"))
  = (empty_fs, editing_state (js "aXYb") 3, []) ∧
  Forall is_backspace [plain_key "backspace" [0x7F]; plain_key "backspace" [0x7F]] ∧
  handleBatch stripControlCharacters empty_fs project_dir
    (editing_state (js "aXYb") 3) (editing_state (js "aXYb") 3)
    [plain_key "backspace" [0x7F]; plain_key "backspace" [0x7F]]
  = (empty_fs, editing_state (js "aX") 1, []) ∧
  editing_state (js "aX") 1 ≠ editing_state (js "ab") 1.
Proof.
  split; [reflexivity|]. split; [by repeat constructor|].
  split; [reflexivity|discriminate].
Qed.

(** A text with an unpaired surrogate is not a sequence of code points in
    that sense, and it can merge with the buffer: after a buffer that ends in
    an unpaired high surrogate, a text that starts with an unpaired low
    surrogate leaves one code point where there were to be two. *)
Example paste_merges_unpaired_surrogates :
  cpLen (editBuffer (handleKeypress (λ s, s) empty_fs project_dir
                       (editing_state [0xD83D] 1) (paste_key [0xDE00])).1.2) = 1 ∧
  editCursorPos (handleKeypress (λ s, s) empty_fs project_dir
                   (editing_state [0xD83D] 1) (paste_key [0xDE00])).1.2 = 2.
Proof. split; reflexivity. Qed.

(** ** The invariant of the edit session *)


(** The invariant holds on the first render, whatever settings were loaded,
    and so on every state a run of events reaches. *)
Lemma session_invariant_reachable {W : Type} `{!NodeEnv W}
    (strip : jsstring → jsstring) wd evs : ∀ (w : W) st,
  Forall (sanitized_well_formed strip) evs →
  session_invariant st →
  session_invariant (dispatch_all strip w wd st evs).
Proof.
  induction evs as [|ev evs IH]; intros w st Hevs Hinv; [done|].
  apply Forall_cons in Hevs as [Hev Hevs]. cbn [dispatch_all].
  assert (session_invariant (dispatch strip w wd st ev).1.2) as Hstep.
  { destruct ev as [key|value]; simpl.
    - by apply handleKeypress_invariant.
    - by apply handleSettingSelect_invariant. }
  destruct (dispatch strip w wd st ev) as [[w1 st1] effects]. by apply IH.
Qed.

Lemma session_invariant_initial loaded :
  session_invariant (setSettings (λ _, loaded) initial_state).
Proof.
  split; [split; [intros Hf; by destruct Hf|discriminate]|].
  split; vm_compute; discriminate.
Qed.


(** ** Module toggles *)

Lemma toggleModule_twice m l x : x ∈ toggleModule m (toggleModule m l) ↔ x ∈ l.
Proof.
  unfold toggleModule at 2. case_bool_decide as Hin.
  - unfold toggleModule. rewrite bool_decide_eq_false_2.
    + rewrite elem_of_app, list_elem_of_filter, list_elem_of_singleton.
      destruct (decide (x = m)) as [->|Hne]; tauto.
    + rewrite list_elem_of_filter. tauto.
  - unfold toggleModule. rewrite bool_decide_eq_true_2.
    + rewrite list_elem_of_filter, elem_of_app, list_elem_of_singleton.
      split.
      * intros [Hne [Hx| ->]]; [done|by destruct Hne].
      * intros Hx. split; [|by left]. by intros ->.
    + rewrite elem_of_app, list_elem_of_singleton. by right.
Qed.

Lemma occurrences_app m l k : occurrences m (l ++ k) = (occurrences m l + occurrences m k)%nat.
Proof. unfold occurrences. by rewrite filter_app, length_app. Qed.

Lemma occurrences_absent m l : m ∉ l → occurrences m l = 0%nat.
Proof.
  unfold occurrences. induction l as [|y l IH]; [done|]. intros Hin.
  apply not_elem_of_cons in Hin as [Hne Hin].
  rewrite filter_cons_False by done. by apply IH.
Qed.

Lemma occurrences_filter_other m x l :
  x ≠ m → occurrences x (filter (λ y, y ≠ m) l) = occurrences x l.
Proof.
  intros Hne. unfold occurrences. induction l as [|y l IH]; [done|].
  destruct (decide (y = m)) as [->|Hy].
  - rewrite (filter_cons_False (λ y, y ≠ m)) by (by intros Hm).
    rewrite (filter_cons_False (λ y, y = x)) by (by intros ->). done.
  - rewrite (filter_cons_True (λ y, y ≠ m)) by done.
    destruct (decide (y = x)) as [->|Hyx].
    + rewrite !(filter_cons_True (λ y, y = x)) by done. simpl. by rewrite IH.
    + rewrite !(filter_cons_False (λ y, y = x)) by done. done.
Qed.

Lemma occurrences_toggle_self m l : (occurrences m (toggleModule m l) ≤ 1)%nat.
Proof.
  unfold toggleModule. case_bool_decide as Hin.
  - rewrite occurrences_absent; [lia|]. rewrite list_elem_of_filter. tauto.
  - rewrite occurrences_app, occurrences_absent by done.
    unfold occurrences. rewrite filter_cons_True by done. simpl. lia.
Qed.

Lemma occurrences_toggle_other m x l :
  x ≠ m → occurrences x (toggleModule m l) = occurrences x l.
Proof.
  intros Hne. unfold toggleModule. case_bool_decide as Hin.
  - by apply occurrences_filter_other.
  - rewrite occurrences_app. unfold occurrences at 2.
    rewrite filter_cons_False by (by intros ->). simpl. lia.
Qed.

Lemma NoDup_toggleModule m l : NoDup l → NoDup (toggleModule m l).
Proof.
  intros Hl. unfold toggleModule. case_bool_decide as Hin.
  - by apply NoDup_filter.
  - apply NoDup_app. split; [done|]. split; [|apply NoDup_singleton].
    intros x Hx. rewrite list_elem_of_singleton. by intros ->.
Qed.

Lemma handleSettingSelect_module value m st :
  (value = "module-sqlite" ∧ m = js "sqlite") ∨
  (value = "module-i18n" ∧ m = js "i18n") →
  handleSettingSelect value st =
  if editing st then st else setSettings (withModules (toggleModule m)) st.
Proof.
  unfold handleSettingSelect. by intros [[-> ->]|[-> ->]].
Qed.

(** C7 fails as stated: the row of one module leaves the duplicates of
    another module in place.  From the modules ["i18n", "i18n"], which the
    load effect takes from a settings file as they are, activating the sqlite
    row gives ["i18n", "i18n", "sqlite"]. *)
Lemma C7_other_duplicates_stay :
  as_settings (spread (settings_object DEFAULT_SETTINGS)
                 (JObj [(js "modules", JArr [JStr (js "i18n"); JStr (js "i18n")])]))
  = Some (settings duplicated_modules_state) ∧
  editing duplicated_modules_state = false ∧
  modules (settings (handleSettingSelect "module-sqlite" duplicated_modules_state))
  = [js "i18n"; js "i18n"; js "sqlite"] ∧
  occurrences (js "i18n")
    (modules (settings (handleSettingSelect "module-sqlite" duplicated_modules_state)))
  = 2%nat.
Proof. repeat split. Qed.

(** C7 (amended): activating a module row twice in succession gives modules
    with the same members as before.  After one activation the module of the
    row occurs at most once and every other module occurs as often as before,
    so modules without duplicates stay without duplicates. *)
Theorem C7_module_toggle value m st :
  (value = "module-sqlite" ∧ m = js "sqlite") ∨
  (value = "module-i18n" ∧ m = js "i18n") →
  (∀ x, x ∈ modules (settings (handleSettingSelect value (handleSettingSelect value st)))
        ↔ x ∈ modules (settings st)) ∧
  (editing st = false →
     (occurrences m (modules (settings (handleSettingSelect value st))) ≤ 1)%nat ∧
     (∀ x, x ≠ m →
        occurrences x (modules (settings (handleSettingSelect value st)))
        = occurrences x (modules (settings st))) ∧
     (NoDup (modules (settings st)) →
        NoDup (modules (settings (handleSettingSelect value st))))).
Proof.
  intros Hrow. rewrite !(handleSettingSelect_module value m) by done.
  destruct (editing st) eqn:Hed.
  - rewrite Hed. split; [done|discriminate].
  - change (editing (setSettings (withModules (toggleModule m)) st)) with (editing st).
    rewrite Hed. cbn [setSettings settings withModules modules]. split.
    + intros x. apply toggleModule_twice.
    + intros _. split; [apply occurrences_toggle_self|].
      split; [intros x; apply occurrences_toggle_other|apply NoDup_toggleModule].
Qed.

Lemma C7_module_toggle_witness :
  (occurrences (js "sqlite")
     (modules (settings (handleSettingSelect "module-sqlite" initial_state))) ≤ 1)%nat ∧
  NoDup (modules (settings (handleSettingSelect "module-sqlite" initial_state))).
Proof.
  destruct (C7_module_toggle "module-sqlite" (js "sqlite") initial_state)
    as [_ Hone]; [left; split; reflexivity|].
  destruct (Hone eq_refl) as (Hself & _ & Hnodup).
  split; [exact Hself|]. apply Hnodup. constructor.
Defined.

(** ** Load *)

Lemma spread_lookup_present a b k v :
  own_properties b !! k = Some v → spread a b !! k = Some v.
Proof. intros Hk. unfold spread. by apply lookup_union_Some_l. Qed.

Lemma spread_lookup_absent a b k :
  own_properties b !! k = None → spread a b !! k = a !! k.
Proof. intros Hk. unfold spread. by apply lookup_union_r. Qed.

(** C4: when the settings file is absent, cannot be read or does not parse,
    the settings stay the defaults (name "new-project", styleReferenceUrl "",
    platform Windows, no modules) and the effect ends normally without
    reporting to the caller.  When the file parses, [setSettings] receives the
    shallow merge: a key of the loaded object has the loaded value (so modules
    is replaced, not concatenated), any other key has its default.  A file
    that holds only [{"platform":"Linux"}] gives platform Linux and the
    defaults elsewhere. *)
Theorem C4_load {W : Type} `{!NodeEnv W} (w : W) (wd : jsstring) :
  let file := path_join [wd; js ".aaagent"; js "product-settings.json"] in
  DEFAULT_SETTINGS = mkSettings (js "new-project") (js "") Windows [] ∧
  (existsSync w file = false →
     loadSettings w wd = (None, []) ∧
     settings_after_load w wd = Some DEFAULT_SETTINGS) ∧
  (existsSync w file = true →
   readFileSync w file = Throws ∨
   (∃ content, readFileSync w file = Normal content ∧ JSON_parse content = Throws) →
     (loadSettings w wd).1 = None ∧
     onSelect_calls (loadSettings w wd).2 = [] ∧
     settings_after_load w wd = Some DEFAULT_SETTINGS) ∧
  (∀ content loaded,
     existsSync w file = true → readFileSync w file = Normal content →
     JSON_parse content = Normal loaded →
     ∃ merged,
       loadSettings w wd = (Some merged, []) ∧
       (∀ k v, own_properties loaded !! k = Some v → merged !! k = Some v) ∧
       (∀ k, own_properties loaded !! k = None →
             merged !! k = settings_object DEFAULT_SETTINGS !! k)) ∧
  (∀ content,
     existsSync w file = true → readFileSync w file = Normal content →
     JSON_parse content = Normal (JObj [(js "platform", JStr (js "Linux"))]) →
     settings_after_load w wd
     = Some (mkSettings (js "new-project") (js "") Linux [])).
Proof.
  intros file. split; [done|].
  unfold settings_after_load, loadSettings. fold file.
  split; [by intros ->|]. split; [|split].
  - intros -> [->|(content & -> & ->)]; done.
  - intros content loaded -> -> ->. eexists. split; [done|]. split.
    + intros k v. apply spread_lookup_present.
    + intros k. apply spread_lookup_absent.
  - intros content -> -> ->. reflexivity.
Qed.

Lemma C4_load_witness :
  settings_after_load empty_fs project_dir = Some DEFAULT_SETTINGS ∧
  settings_after_load garbled_fs project_dir = Some DEFAULT_SETTINGS ∧
  settings_after_load linux_fs project_dir
  = Some (mkSettings (js "new-project") (js "") Linux []).
Proof.
  destruct (C4_load empty_fs project_dir) as (_ & Habsent & _).
  destruct (C4_load garbled_fs project_dir) as (_ & _ & Hfails & _).
  destruct (C4_load linux_fs project_dir) as (_ & _ & _ & _ & Hlinux).
  split; [apply Habsent; reflexivity|].
  split.
  - apply Hfails; [reflexivity|]. right. exists (js "{oops"). split; reflexivity.
  - apply (Hlinux linux_only_text); reflexivity.
Defined.

(** ** Save *)

#[global] Instance MemEnvLaws : NodeEnvLaws MemFS.
Proof.
  split.
  - intros w w' dir. simpl. destruct (mem_writable w); [|discriminate].
    intros [= <-]. simpl. rewrite bool_decide_eq_true_2; [done|by left].
  - intros w w' file content. simpl. destruct (mem_writable w); [|discriminate].
    intros [= <-]. simpl. by rewrite lookup_insert_eq.
  - intros w w' file content other. simpl. destruct (mem_writable w); [|discriminate].
    intros [= <-]. simpl. intros Hex.
    apply orb_true_iff in Hex as [Hd|Hf]; apply orb_true_iff; [by left|right].
    apply bool_decide_eq_true in Hf. apply bool_decide_eq_true.
    destruct (decide (file = other)) as [->|Hne].
    + rewrite lookup_insert_eq. by eexists.
    + by rewrite lookup_insert_ne.
Qed.

(** C8: [saveSettings] makes the directory (recursively) when it does not
    exist, writes the serialization of the settings of the state to the
    settings file, and then calls [onSelect] with those settings; afterwards
    the directory exists and the file holds the serialization.  When making
    the directory or writing the file throws, it logs, calls [onSelect] with
    [undefined] and returns normally.  In every case [onSelect] is called
    once. *)
Theorem C8_save {W : Type} `{!NodeEnv W} `{!NodeEnvLaws W} (w : W) wd st :
  let dir := path_join [wd; js ".aaagent"] in
  let file := path_join [dir; js "product-settings.json"] in
  let text := JSON_stringify (settings st) in
  let failed := [ConsoleError (js "Failed to save product settings:"); OnSelect None] in
  length (onSelect_calls (saveSettings w wd st).2) = 1%nat ∧
  (∀ w1 w2,
     (existsSync w dir = true ∧ w1 = w) ∨
     (existsSync w dir = false ∧ mkdirSync_recursive w dir = (Normal (), w1)) →
     (writeFileSync w1 file text = (Normal (), w2) →
        saveSettings w wd st = (w2, [OnSelect (Some (settings st))]) ∧
        existsSync w2 dir = true ∧
        readFileSync w2 file = Normal text) ∧
     (writeFileSync w1 file text = (Throws, w2) →
        saveSettings w wd st = (w2, failed))) ∧
  (∀ w1,
     existsSync w dir = false → mkdirSync_recursive w dir = (Throws, w1) →
     saveSettings w wd st = (w1, failed)).
Proof.
  intros dir file text failed. unfold saveSettings. fold dir file text failed.
  split; [|split].
  - destruct (existsSync w dir); simpl.
    + by destruct (writeFileSync w file text) as [[[]|] w2].
    + destruct (mkdirSync_recursive w dir) as [[[]|] w1]; [|done].
      by destruct (writeFileSync w1 file text) as [[[]|] w2].
  - intros w1 w2 [[Hex ->]|[Hex Hmk]]; rewrite Hex; simpl.
    + split; intros Hwr; rewrite Hwr; [|done].
      split; [done|]. split.
      * by apply (writeFileSync_keeps w w2 file text dir).
      * by apply (writeFileSync_read w w2 file text).
    + rewrite Hmk. split; intros Hwr; rewrite Hwr; [|done].
      split; [done|]. split.
      * apply (writeFileSync_keeps w1 w2 file text dir); [done|].
        by apply (mkdirSync_exists w w1 dir).
      * by apply (writeFileSync_read w1 w2 file text).
  - intros w1 Hex Hmk. by rewrite Hex; simpl; rewrite Hmk.
Qed.

Lemma C8_save_witness :
  (saveSettings empty_fs project_dir initial_state).2
    = [OnSelect (Some DEFAULT_SETTINGS)] ∧
  readFileSync (saveSettings empty_fs project_dir initial_state).1
    (js "/proj/.aaagent/product-settings.json")
    = Normal (mem_stringify DEFAULT_SETTINGS) ∧
  (saveSettings readonly_fs project_dir initial_state).2
    = [ConsoleError (js "Failed to save product settings:"); OnSelect None].
Proof.
  destruct (C8_save empty_fs project_dir initial_state) as (_ & Hok & _).
  destruct (C8_save readonly_fs project_dir initial_state) as (_ & _ & Hfail).
  destruct (Hok (mkMemFS [js "/proj/.aaagent"] ∅ true)
                (mkMemFS [js "/proj/.aaagent"]
                   {[ js "/proj/.aaagent/product-settings.json"
                      := mem_stringify DEFAULT_SETTINGS ]} true))
    as [Hwritten _]; [right; split; reflexivity|].
  destruct Hwritten as (Hsave & _ & Hread); [reflexivity|].
  split; [by rewrite Hsave|]. split; [by rewrite Hsave|].
  by rewrite (Hfail readonly_fs eq_refl eq_refl).
Defined.

(** * Further properties *)

(** ** Well-formed strings *)

Lemma forallb_take {A} (f : A → bool) n l :
  forallb f l = true → forallb f (take n l) = true.
Proof.
  revert n. induction l as [|x l IH]; intros [|n]; simpl; try done.
  intros H. apply andb_true_iff in H as [-> H]. by apply IH.
Qed.

Lemma forallb_drop {A} (f : A → bool) n l :
  forallb f l = true → forallb f (drop n l) = true.
Proof.
  revert n. induction l as [|x l IH]; intros [|n]; simpl; try done.
  intros H. apply andb_true_iff in H as [_ H]. by apply IH.
Qed.

Lemma toCodePoints_scalar cs :
  forallb scalar_chunk cs = true → toCodePoints (concat cs) = cs.
Proof.
  intros H. rewrite <- (app_nil_r (concat cs)), toCodePoints_concat by done.
  apply app_nil_r.
Qed.

Lemma well_formed_concat cs :
  forallb scalar_chunk cs = true → well_formed (concat cs) = true.
Proof. intros H. unfold well_formed. by rewrite toCodePoints_scalar. Qed.

Lemma well_formed_app a b :
  well_formed a = true → well_formed b = true → well_formed (a ++ b) = true.
Proof.
  intros Ha Hb. unfold well_formed. rewrite toCodePoints_app by done.
  rewrite forallb_app. apply andb_true_iff. by split.
Qed.

Lemma well_formed_cpSlice b p q :
  well_formed b = true → 0 ≤ p → 0 ≤ q →
  well_formed (cpSlice b 0 (Some p)) = true ∧ well_formed (cpSlice b q None) = true.
Proof.
  intros Hb Hp Hq. unfold cpSlice.
  rewrite js_slice_prefix, js_slice_suffix by done.
  split; apply well_formed_concat; [by apply forallb_take|by apply forallb_drop].
Qed.


Lemma whitespace_not_surrogate u : is_js_whitespace u = true → is_surrogate u = false.
Proof.
  unfold is_js_whitespace, is_surrogate. intros H.
  apply andb_false_iff.
  destruct (Z.leb_spec 0xD800 u); [right|by left].
  apply Z.leb_gt.
  repeat (apply orb_true_iff in H as [H|H]);
    repeat (apply andb_true_iff in H as [? H]); lia.
Qed.

Lemma trim_start_split s :
  ∃ t, s = t ++ trim_start s ∧ Forall (λ u, is_js_whitespace u = true) t.
Proof.
  induction s as [|u s (t & Hs & Ht)]; [by exists []|]. simpl.
  destruct (is_js_whitespace u) eqn:Hu.
  - exists (u :: t). split; [by rewrite Hs at 1|by constructor].
  - by exists [].
Qed.

Lemma trim_end_split s :
  ∃ t, s = trim_end s ++ t ∧ Forall (λ u, is_js_whitespace u = true) t.
Proof.
  unfold trim_end. destruct (trim_start_split (reverse s)) as (t & Hs & Ht).
  exists (reverse t). split.
  - rewrite <- reverse_app, <- Hs. by rewrite reverse_involutive.
  - by apply Forall_reverse.
Qed.

Lemma well_formed_drop_whitespace t s :
  Forall (λ u, is_js_whitespace u = true) t →
  well_formed (t ++ s) = true → well_formed s = true.
Proof.
  induction 1 as [|u t Hu _ IH]; [done|]. intros H. apply IH.
  unfold well_formed in *. cbn [app] in H.
  rewrite toCodePoints_cons_plain in H
    by by apply not_surrogate_high, whitespace_not_surrogate.
  simpl in H. by apply andb_true_iff in H as [_ H].
Qed.

Lemma well_formed_trim s : well_formed s = true → well_formed (js_trim s) = true.
Proof.
  intros H. unfold js_trim.
  assert (well_formed (trim_start s) = true) as Hstart.
  { destruct (trim_start_split s) as (t & Hs & Ht). rewrite Hs in H.
    by apply (well_formed_drop_whitespace t). }
  destruct (trim_end_split (trim_start s)) as (t & Hs & Ht).
  rewrite Hs in Hstart. unfold well_formed in *.
  rewrite toCodePoints_app_plain in Hstart.
  - rewrite forallb_app in Hstart. by apply andb_true_iff in Hstart as [? _].
  - destruct t as [|v t]; [done|].
    apply Forall_cons in Ht as [Hv _].
    by apply not_surrogate_low, whitespace_not_surrogate.
Qed.

(** ** Trimming twice *)

Lemma trim_start_fixed (s : jsstring) :
  match s with u :: _ => is_js_whitespace u = false | [] => True end →
  trim_start s = s.
Proof. destruct s as [|u s]; [done|]. simpl. by intros ->. Qed.

Lemma trim_start_head s :
  match trim_start s with u :: _ => is_js_whitespace u = false | [] => True end.
Proof.
  induction s as [|u s IH]; [done|]. simpl.
  destruct (is_js_whitespace u) eqn:Hu; [done|]. by rewrite Hu.
Qed.

Lemma trim_start_idemp s : trim_start (trim_start s) = trim_start s.
Proof. apply trim_start_fixed, trim_start_head. Qed.

Lemma trim_end_idemp s : trim_end (trim_end s) = trim_end s.
Proof. unfold trim_end. by rewrite reverse_involutive, trim_start_idemp. Qed.

Lemma js_trim_head s :
  match js_trim s with u :: _ => is_js_whitespace u = false | [] => True end.
Proof.
  unfold js_trim. pose proof (trim_start_head s) as Hhead.
  destruct (trim_end_split (trim_start s)) as (t & Hs & _).
  destruct (trim_end (trim_start s)) as [|u e]; [done|].
  rewrite Hs in Hhead. exact Hhead.
Qed.

(** [trim] is idempotent. *)
Lemma js_trim_idemp s : js_trim (js_trim s) = js_trim s.
Proof.
  unfold js_trim at 1. rewrite (trim_start_fixed (js_trim s)) by apply js_trim_head.
  unfold js_trim. apply trim_end_idemp.
Qed.

(** ** More branches of the keypress handler *)

Ltac key_branches :=
  unfold handleKeypress;
  repeat match goal with
    | |- context [if ?c then _ else _] => destruct c eqn:?
    | |- context [match focusMode ?s with _ => _ end] => destruct (focusMode s) eqn:?
    | |- context [saveSettings ?w ?wd ?s] =>
        destruct (saveSettings w wd s) as [? ?] eqn:?
    end.

Section MoreBranches.

Variable strip : jsstring → jsstring.
Context {W : Type} `{!NodeEnv W}.
Variables (w : W) (wd : jsstring) (st : DialogState) (key : Key).




Lemma handleKeypress_tab :
  editing st = false → key_name key = "tab" →
  handleKeypress strip w wd st key =
  (w, mkState (settings st)
        (match focusMode st with
         | FocusSettings => FocusActions
         | FocusActions => FocusSettings
         end)
        (actionIndex st) (editingField st) (editBuffer st) (editCursorPos st), []).
Proof. unfold handleKeypress. by intros -> ->. Qed.

End MoreBranches.

Lemma state_eta st :
  mkState (settings st) (focusMode st) (actionIndex st) (editingField st)
          (editBuffer st) (editCursorPos st) = st.
Proof. by destruct st. Qed.

(** ** Cursor keys *)





(** ** Deleting on a well-formed buffer *)





Lemma handleKeys_cons {W : Type} `{!NodeEnv W}
    (strip : jsstring → jsstring) (w : W) wd st key keys w1 st1 :
  handleKeypress strip w wd st key = (w1, st1, []) →
  handleKeys strip w wd st (key :: keys) = handleKeys strip w1 wd st1 keys.
Proof.
  intros Hstep. cbn [handleKeys]. rewrite Hstep.
  by destruct (handleKeys strip w1 wd st1 keys) as [[? ?] ?].
Qed.

(** The buffer after a character was typed, cut where the backspace branch
    of the same render cuts it. *)
Lemma cpSlice_typed (b : jsstring) (u p : Z) :
  is_surrogate u = false → 0 < p ≤ cpLen b →
  cpSlice (cpSlice b 0 (Some p) ++ [u] ++ cpSlice b p None) 0 (Some (p - 1))
    = cpSlice b 0 (Some (p - 1)) ∧
  cpSlice (cpSlice b 0 (Some p) ++ [u] ++ cpSlice b p None) p None
    = [u] ++ cpSlice b p None.
Proof.
  intros Hu [Hlo Hhi]. unfold cpLen in Hhi.
  assert (toCodePoints (cpSlice b 0 (Some p) ++ [u] ++ cpSlice b p None)
          = take (Z.to_nat p) (toCodePoints b) ++ [[u]]
            ++ drop (Z.to_nat p) (toCodePoints b)) as Hparse.
  { pose proof (not_surrogate_high u Hu) as Hhigh.
    rewrite toCodePoints_insert; [|unfold well_formed|done|lia].
    - by rewrite (toCodePoints_cons_plain u []) by done.
    - rewrite (toCodePoints_cons_plain u []) by done.
      cbn [toCodePoints forallb scalar_chunk]. by rewrite Hu. }
  assert (length (take (Z.to_nat p) (toCodePoints b)) = Z.to_nat p) as Htake
    by (rewrite length_take; lia).
  set (typed := cpSlice b 0 (Some p) ++ [u] ++ cpSlice b p None) in *.
  split.
  - unfold cpSlice. rewrite !js_slice_prefix by lia. rewrite Hparse.
    rewrite take_app_le by lia. rewrite take_take.
    by replace (Z.to_nat (p - 1) `min` Z.to_nat p)%nat with (Z.to_nat (p - 1)) by lia.
  - unfold cpSlice. rewrite !js_slice_suffix by lia. rewrite Hparse.
    rewrite <- Htake at 1. rewrite drop_app_length. done.
Qed.

(** X5: a typed character (a key that is no paste and none of the named
    keys, whose sanitized sequence is one code unit that is no surrogate) is
    put at the cursor, and a backspace that the component handles after it
    has rendered the typed character gives back the whole state: buffer,
    cursor and everything else.  A backspace handled within the render that
    handled the typed character does not: its updater cuts the buffer at the
    cursor of that render, so with the cursor after the start the typed
    character stays and the code point that was before the cursor goes,
    while the cursor is back where it was. *)
Theorem X5_type_then_backspace {W : Type} `{!NodeEnv W}
    (strip : jsstring → jsstring) (w : W) wd st key back u :
  editing st = true → is_paste key = false → unnamed_key key →
  strip (key_sequence key) = [u] → is_surrogate u = false →
  cursor_in_bounds st → is_backspace back →
  handleKeypress strip w wd st key =
    (w, mkState (settings st) (focusMode st) (actionIndex st) (editingField st)
          (cpSlice (editBuffer st) 0 (Some (editCursorPos st)) ++ [u]
           ++ cpSlice (editBuffer st) (editCursorPos st) None)
          (editCursorPos st + 1), []) ∧
  handleKeypress strip w wd (handleKeypress strip w wd st key).1.2 back
    = (w, st, []) ∧
  (0 < editCursorPos st →
   handleBatch strip w wd st st [key; back] =
     (w, mkState (settings st) (focusMode st) (actionIndex st) (editingField st)
           (cpSlice (editBuffer st) 0 (Some (editCursorPos st - 1)) ++ [u]
            ++ cpSlice (editBuffer st) (editCursorPos st) None)
           (editCursorPos st), [])).
Proof.
  intros Hed Hp Hname Hch Hu [Hlo Hhi] Hback.
  assert (handleKeypress strip w wd st key =
          (w, mkState (settings st) (focusMode st) (actionIndex st) (editingField st)
                (cpSlice (editBuffer st) 0 (Some (editCursorPos st)) ++ [u]
                 ++ cpSlice (editBuffer st) (editCursorPos st) None)
                (editCursorPos st + 1), [])) as Hstep.
  { rewrite handleKeypress_character by done. by rewrite Hch. }
  split; [exact Hstep|]. split.
  - rewrite Hstep. cbn [fst snd].
    assert (handleKeys strip w wd
              (mkState (settings st) (focusMode st) (actionIndex st) (editingField st)
                 (cpSlice (editBuffer st) 0 (Some (editCursorPos st)) ++ [u]
                  ++ cpSlice (editBuffer st) (editCursorPos st) None)
                 (editCursorPos st + 1)) [back] = (w, st, [])) as Hkeys.
    { unfold cpLen in Hhi.
      rewrite (backspaces_remove strip w wd (editBuffer st)
                 (Z.to_nat (editCursorPos st)) [back] [[u]]).
      - cbn [editBuffer editCursorPos settings focusMode actionIndex editingField].
        rewrite Z2Nat.id by done. by rewrite state_eta.
      - done.
      - by constructor.
      - done.
      - simpl. by rewrite Hu.
      - lia.
      - cbn [editBuffer]. unfold cpSlice.
        rewrite js_slice_prefix, js_slice_suffix by done. done.
      - cbn [editCursorPos length]. lia. }
    cbn [handleKeys] in Hkeys.
    destruct (handleKeypress strip w wd _ back) as [[w1 st1] effs1].
    by rewrite app_nil_r in Hkeys.
  - intros Hpos. cbn [handleBatch].
    rewrite handleKeypressAt_fresh, Hstep.
    rewrite handleKeypressAt_backspace by done.
    cbn [editBuffer editCursorPos settings focusMode actionIndex editingField].
    destruct (cpSlice_typed (editBuffer st) u (editCursorPos st)) as [-> ->];
      [done|lia|].
    do 3 f_equal. lia.
Qed.

Lemma X5_type_then_backspace_witness :
  handleKeypress stripControlCharacters empty_fs project_dir
    (handleKeypress stripControlCharacters empty_fs project_dir
       (editing_state (js "ab") 1) (plain_key "" (js "x"))).1.2
    (plain_key "backspace" [127])
  = (empty_fs, editing_state (js "ab") 1, []) ∧
  handleBatch stripControlCharacters empty_fs project_dir
    (editing_state (js "ab") 1) (editing_state (js "ab") 1)
    [plain_key "" (js "x"); plain_key "backspace" [127]]
  = (empty_fs, editing_state (js "xb") 1, []).
Proof.
  destruct (X5_type_then_backspace stripControlCharacters empty_fs project_dir
              (editing_state (js "ab") 1) (plain_key "" (js "x"))
              (plain_key "backspace" [127]) 120) as (_ & Hrender & Hbatch).
  - reflexivity.
  - reflexivity.
  - unfold unnamed_key. simpl. rewrite !not_elem_of_cons.
    repeat split; try discriminate. apply not_elem_of_nil.
  - reflexivity.
  - reflexivity.
  - split; vm_compute; discriminate.
  - split; reflexivity.
  - split; [exact Hrender|]. apply Hbatch. reflexivity.
Defined.

(** ** What a key event can reach *)

(** X6: while a session is open no key event reports to the caller, calls
    the file system, or changes the focused region, the action index, the
    platform, the modules or the style reference URL: Tab does not switch
    regions, Escape does not close the dialog, and only the name can be
    changed. *)
Theorem X6_editing_is_isolated {W : Type} `{!NodeEnv W}
    (strip : jsstring → jsstring) (w : W) wd st key :
  editing st = true →
  (handleKeypress strip w wd st key).1.1 = w ∧
  (handleKeypress strip w wd st key).2 = [] ∧
  focusMode (handleKeypress strip w wd st key).1.2 = focusMode st ∧
  actionIndex (handleKeypress strip w wd st key).1.2 = actionIndex st ∧
  platform (settings (handleKeypress strip w wd st key).1.2) = platform (settings st) ∧
  modules (settings (handleKeypress strip w wd st key).1.2) = modules (settings st) ∧
  styleReferenceUrl (settings (handleKeypress strip w wd st key).1.2)
    = styleReferenceUrl (settings st).
Proof.
  intros Hed. unfold handleKeypress. rewrite Hed.
  repeat match goal with
    | |- context [if ?c then _ else _] => destruct c eqn:?
    end; try done.
  cbn [fst snd]. unfold commitEdit.
  destruct (editingField st) as [[]|]; [|done].
  by destruct (negb (truthy (js_trim (editBuffer st)))).
Qed.

Lemma X6_editing_is_isolated_witness :
  focusMode (handleKeypress stripControlCharacters empty_fs project_dir
               (editing_state (js "ab") 1) (plain_key "tab" [9])).1.2 = FocusSettings ∧
  (handleKeypress stripControlCharacters empty_fs project_dir
     (editing_state (js "ab") 1) (plain_key "escape" [27])).2 = [].
Proof.
  split.
  - apply (X6_editing_is_isolated stripControlCharacters empty_fs project_dir
             (editing_state (js "ab") 1) (plain_key "tab" [9])). reflexivity.
  - apply (X6_editing_is_isolated stripControlCharacters empty_fs project_dir
             (editing_state (js "ab") 1) (plain_key "escape" [27])). reflexivity.
Defined.

(** X7: the handler that the dialog registers with [useKeypress] changes,
    in navigating mode, neither the settings nor any cell of the edit
    session: through this handler a key can only move the focus between the
    regions, move the action index, or end the dialog.  (The settings list
    has a handler of its own for the rows, [handleSettingSelect], which is
    the one that opens a session or changes a setting.) *)
Theorem X7_keypress_handler_leaves_settings_when_navigating
    {W : Type} `{!NodeEnv W}
    (strip : jsstring → jsstring) (w : W) wd st key :
  editing st = false →
  settings (handleKeypress strip w wd st key).1.2 = settings st ∧
  editingField (handleKeypress strip w wd st key).1.2 = editingField st ∧
  editBuffer (handleKeypress strip w wd st key).1.2 = editBuffer st ∧
  editCursorPos (handleKeypress strip w wd st key).1.2 = editCursorPos st.
Proof. intros Hed. unfold handleKeypress. rewrite Hed. by key_branches. Qed.

Lemma X7_keypress_handler_leaves_settings_when_navigating_witness :
  settings (handleKeypress stripControlCharacters empty_fs project_dir
              duplicated_modules_state (plain_key "tab" [9])).1.2
  = settings duplicated_modules_state.
Proof.
  apply (X7_keypress_handler_leaves_settings_when_navigating
           stripControlCharacters empty_fs project_dir duplicated_modules_state
           (plain_key "tab" [9])).
  reflexivity.
Defined.

Lemma saveSettings_reports_once {W : Type} `{!NodeEnv W} (w : W) wd st :
  length (onSelect_calls (saveSettings w wd st).2) = 1%nat.
Proof.
  unfold saveSettings.
  destruct (existsSync w _); simpl.
  - by destruct (writeFileSync w _ _) as [[[]|] w2].
  - destruct (mkdirSync_recursive w _) as [[[]|] w1]; [|done].
    by destruct (writeFileSync w1 _ _) as [[[]|] w2].
Qed.

(** X8: a key event calls [onSelect] at most once, and it leaves the file
    system alone unless it is Return on the action row with the action index
    0 in navigating mode (Apply), where the file system is the one
    [saveSettings] leaves. *)
Theorem X8_one_report_and_only_apply_writes {W : Type} `{!NodeEnv W}
    (strip : jsstring → jsstring) (w : W) wd st key :
  (length (onSelect_calls (handleKeypress strip w wd st key).2) ≤ 1)%nat ∧
  ((handleKeypress strip w wd st key).1.1 = w ∨
   (editing st = false ∧ focusMode st = FocusActions ∧ key_name key = "return" ∧
    actionIndex st = 0 ∧
    (handleKeypress strip w wd st key).1.1 = (saveSettings w wd st).1)).
Proof.
  pose proof (saveSettings_reports_once w wd st) as Honce.
  unfold handleKeypress.
  destruct (editing st) eqn:Hed.
  - repeat match goal with
      | |- context [if ?c then _ else _] => destruct c eqn:?
      end; (split; [simpl; lia|by left]).
  - destruct (String.eqb (key_name key) "tab"); [split; [simpl; lia|by left]|].
    destruct (String.eqb (key_name key) "escape"); [split; [simpl; lia|by left]|].
    destruct (focusMode st); [split; [simpl; lia|by left]|].
    destruct (_ || _); [split; [simpl; lia|by left]|].
    destruct (_ || _); [split; [simpl; lia|by left]|].
    destruct (String.eqb (key_name key) "return") eqn:Hret;
      [|split; [simpl; lia|by left]].
    destruct (actionIndex st =? 0) eqn:Hidx; [|split; [simpl; lia|by left]].
    apply String.eqb_eq in Hret. apply Z.eqb_eq in Hidx.
    destruct (saveSettings w wd st) as [w' effects]. cbn [fst snd] in *.
    split; [lia|]. right. done.
Qed.

(** ** The focus *)

(** X9: in navigating mode Tab moves the focus to the other region and a
    second Tab moves it back: two Tabs give back the whole state, without
    effects. *)
Theorem X9_tab_twice {W : Type} `{!NodeEnv W}
    (strip : jsstring → jsstring) (w : W) wd st k1 k2 :
  editing st = false → key_name k1 = "tab" → key_name k2 = "tab" →
  focusMode (handleKeypress strip w wd st k1).1.2 ≠ focusMode st ∧
  handleKeys strip w wd st [k1; k2] = (w, st, []).
Proof.
  intros Hed Hk1 Hk2.
  pose proof (handleKeypress_tab strip w wd st k1 Hed Hk1) as Hstep1.
  split; [rewrite Hstep1; by destruct (focusMode st)|].
  rewrite (handleKeys_cons strip w wd st k1 [k2] _ _ Hstep1).
  cbn [handleKeys]. rewrite handleKeypress_tab by done.
  cbn [fst snd settings focusMode actionIndex editingField editBuffer editCursorPos].
  destruct st as [s f i e b c]. by destruct f.
Qed.

Lemma X9_tab_twice_witness :
  handleKeys stripControlCharacters empty_fs project_dir initial_state
    [plain_key "tab" [9]; plain_key "tab" [9]]
  = (empty_fs, initial_state, []).
Proof.
  apply (X9_tab_twice stripControlCharacters empty_fs project_dir initial_state
           (plain_key "tab" [9]) (plain_key "tab" [9])); reflexivity.
Defined.

Lemma dispatch_actionIndex {W : Type} `{!NodeEnv W}
    (strip : jsstring → jsstring) (w : W) wd st ev :
  actionIndex st = 0 ∨ actionIndex st = 1 →
  actionIndex (dispatch strip w wd st ev).1.2 = 0 ∨
  actionIndex (dispatch strip w wd st ev).1.2 = 1.
Proof.
  intros Hidx. destruct ev as [key|value]; cbn [dispatch].
  - unfold handleKeypress.
    repeat match goal with
      | |- context [if ?c then _ else _] => destruct c eqn:?
      | |- context [match focusMode ?s with _ => _ end] => destruct (focusMode s) eqn:?
      | |- context [saveSettings ?w ?wd ?s] =>
          destruct (saveSettings w wd s) as [? ?] eqn:?
      end; cbn [fst snd actionIndex setActionIndex setEditCursorPos setEditBuffer
                setFocusMode closeSession setEditingField]; auto.
    unfold commitEdit. destruct (editingField st) as [[]|]; [|done].
    by destruct (negb (truthy (js_trim (editBuffer st)))).
  - unfold handleSettingSelect.
    repeat match goal with
      | |- context [if ?c then _ else _] => destruct c eqn:?
      end; done.
Qed.

(** X10: the action index stays 0 or 1 through every run of key events and
    row activations: the action row never points past its two buttons. *)
Theorem X10_action_index_in_range {W : Type} `{!NodeEnv W}
    (strip : jsstring → jsstring) wd evs : ∀ (w : W) st,
  actionIndex st = 0 ∨ actionIndex st = 1 →
  actionIndex (dispatch_all strip w wd st evs) = 0 ∨
  actionIndex (dispatch_all strip w wd st evs) = 1.
Proof.
  induction evs as [|ev evs IH]; intros w st Hidx; [done|].
  cbn [dispatch_all].
  pose proof (dispatch_actionIndex strip w wd st ev Hidx) as Hstep.
  destruct (dispatch strip w wd st ev) as [[w1 st1] effects]. by apply IH.
Qed.

Lemma X10_action_index_in_range_witness :
  actionIndex (dispatch_all stripControlCharacters empty_fs project_dir initial_state
                 [KeyEvent (plain_key "tab" [9]); KeyEvent (plain_key "right" []);
                  KeyEvent (plain_key "right" [])]) = 1.
Proof.
  destruct (X10_action_index_in_range stripControlCharacters project_dir
              [KeyEvent (plain_key "tab" [9]); KeyEvent (plain_key "right" []);
               KeyEvent (plain_key "right" [])] empty_fs initial_state)
    as [H0|H1]; [by left|discriminate H0|exact H1].
Defined.

(** ** Opening and closing a session *)

Lemma handleSettingSelect_name st :
  editing st = false →
  handleSettingSelect "name" st =
  mkState (settings st) (focusMode st) (actionIndex st) (Some FieldName)
          (name (settings st)) (cpLen (name (settings st))).
Proof. unfold handleSettingSelect. by intros ->. Qed.

Lemma session_closed_eta st :
  session_closed st →
  mkState (settings st) (focusMode st) (actionIndex st) None [] 0 = st.
Proof. destruct st. by intros (? & ? & ?); simpl in *; subst. Qed.

(** X11: activating the name row in navigating mode opens a session whose
    buffer is the current name and whose cursor is at its end; Escape right
    after it gives back the whole state, without effects. *)
Theorem X11_open_then_escape {W : Type} `{!NodeEnv W}
    (strip : jsstring → jsstring) (w : W) wd st key :
  session_closed st → is_paste key = false → key_name key = "escape" →
  editing (handleSettingSelect "name" st) = true ∧
  editBuffer (handleSettingSelect "name" st) = name (settings st) ∧
  editCursorPos (handleSettingSelect "name" st) = cpLen (name (settings st)) ∧
  dispatch_run strip w wd st [SelectEvent "name"; KeyEvent key] = (w, st, []).
Proof.
  intros Hclosed Hp Hname.
  assert (editing st = false) as Hed
    by (unfold editing; by destruct Hclosed as [-> _]).
  cbn [dispatch_run dispatch]. rewrite handleSettingSelect_name by done.
  repeat split.
  rewrite handleKeypress_escape_editing by done.
  unfold closeSession, setEditCursorPos, setEditBuffer, setEditingField.
  cbn [settings focusMode actionIndex editingField editBuffer editCursorPos app].
  by rewrite session_closed_eta.
Qed.

Lemma X11_open_then_escape_witness :
  dispatch_run stripControlCharacters empty_fs project_dir initial_state
    [SelectEvent "name"; KeyEvent (plain_key "escape" [27])]
  = (empty_fs, initial_state, []).
Proof.
  apply (X11_open_then_escape stripControlCharacters empty_fs project_dir
           initial_state (plain_key "escape" [27])); [|reflexivity|reflexivity].
  repeat split.
Defined.

(** X12: activating the name row and pressing Return at once commits the
    name as it stands: the name becomes its trimmed form, or stays as it is
    when that is empty; nothing else changes and nothing is reported.  A name
    that is already trimmed is left as it is. *)
Theorem X12_open_then_return {W : Type} `{!NodeEnv W}
    (strip : jsstring → jsstring) (w : W) wd st key :
  session_closed st → is_paste key = false → key_name key = "return" →
  dispatch_run strip w wd st [SelectEvent "name"; KeyEvent key] =
  (w, (if truthy (js_trim (name (settings st)))
       then setSettings (λ prev, mkSettings (js_trim (name (settings st)))
                                   (styleReferenceUrl prev) (platform prev)
                                   (modules prev)) st
       else st), []) ∧
  (js_trim (name (settings st)) = name (settings st) →
   dispatch_run strip w wd st [SelectEvent "name"; KeyEvent key] = (w, st, [])).
Proof.
  intros Hclosed Hp Hname.
  assert (editing st = false) as Hed
    by (unfold editing; by destruct Hclosed as [-> _]).
  assert (dispatch_run strip w wd st [SelectEvent "name"; KeyEvent key] =
          (w, (if truthy (js_trim (name (settings st)))
               then setSettings (λ prev, mkSettings (js_trim (name (settings st)))
                                           (styleReferenceUrl prev) (platform prev)
                                           (modules prev)) st
               else st), [])) as Hrun.
  { cbn [dispatch_run dispatch]. rewrite handleSettingSelect_name by done.
    rewrite handleKeypress_return_editing by done.
    unfold commitEdit.
    cbn [settings focusMode actionIndex editingField editBuffer editCursorPos app].
    destruct (truthy (js_trim (name (settings st)))); cbn [negb];
      unfold closeSession, setEditCursorPos, setEditBuffer, setEditingField, setSettings;
      cbn [settings focusMode actionIndex editingField editBuffer editCursorPos].
    - destruct st as [s f i e b c]. destruct Hclosed as (? & ? & ?).
      simpl in *. by subst.
    - by rewrite session_closed_eta. }
  split; [exact Hrun|]. intros Htrim. rewrite Hrun, Htrim.
  destruct (truthy (name (settings st))); [|done].
  destruct st as [[n u p m] f i e b c]. done.
Qed.

Lemma X12_open_then_return_witness :
  name (settings
    (dispatch_run stripControlCharacters empty_fs project_dir
       (setSettings (λ _, mkSettings (js "  app ") [] Linux []) initial_state)
       [SelectEvent "name"; KeyEvent (plain_key "return" [13])]).1.2) = js "app".
Proof.
  destruct (X12_open_then_return stripControlCharacters empty_fs project_dir
              (setSettings (λ _, mkSettings (js "  app ") [] Linux []) initial_state)
              (plain_key "return" [13])) as [Hrun _];
    [repeat split|reflexivity|reflexivity|].
  rewrite Hrun. reflexivity.
Defined.

(** ** What a run keeps *)

Lemma commitEdit_name st :
  name (settings (commitEdit st)) = name (settings st) ∨
  (name (settings (commitEdit st)) = js_trim (editBuffer st) ∧
   js_trim (editBuffer st) ≠ []).
Proof.
  unfold commitEdit. destruct (editingField st) as [[]|]; [|by left].
  destruct (truthy (js_trim (editBuffer st))) eqn:Ht; cbn [negb]; [|by left].
  right. split; [done|]. intros Hempty. by rewrite Hempty in Ht.
Qed.

Lemma handleKeypress_name {W : Type} `{!NodeEnv W}
    (strip : jsstring → jsstring) (w : W) wd st key :
  name (settings (handleKeypress strip w wd st key).1.2) = name (settings st) ∨
  (name (settings (handleKeypress strip w wd st key).1.2) = js_trim (editBuffer st) ∧
   js_trim (editBuffer st) ≠ []).
Proof.
  unfold handleKeypress.
  repeat match goal with
    | |- context [if ?c then _ else _] => destruct c eqn:?
    | |- context [match focusMode ?s with _ => _ end] => destruct (focusMode s) eqn:?
    | |- context [saveSettings ?w ?wd ?s] =>
        destruct (saveSettings w wd s) as [? ?] eqn:?
    end; try (by left).
  apply commitEdit_name.
Qed.

Lemma handleKeypress_keeps {W : Type} `{!NodeEnv W}
    (strip : jsstring → jsstring) (w : W) wd st key :
  styleReferenceUrl (settings (handleKeypress strip w wd st key).1.2)
    = styleReferenceUrl (settings st) ∧
  platform (settings (handleKeypress strip w wd st key).1.2) = platform (settings st) ∧
  modules (settings (handleKeypress strip w wd st key).1.2) = modules (settings st).
Proof.
  unfold handleKeypress.
  repeat match goal with
    | |- context [if ?c then _ else _] => destruct c eqn:?
    | |- context [match focusMode ?s with _ => _ end] => destruct (focusMode s) eqn:?
    | |- context [saveSettings ?w ?wd ?s] =>
        destruct (saveSettings w wd s) as [? ?] eqn:?
    end; try done.
  cbn [fst snd]. unfold commitEdit.
  destruct (editingField st) as [[]|]; [|done].
  by destruct (negb (truthy (js_trim (editBuffer st)))).
Qed.

Lemma handleSettingSelect_keeps st value :
  name (settings (handleSettingSelect value st)) = name (settings st) ∧
  styleReferenceUrl (settings (handleSettingSelect value st))
    = styleReferenceUrl (settings st).
Proof.
  unfold handleSettingSelect.
  repeat match goal with
    | |- context [if ?c then _ else _] => destruct c eqn:?
    end; done.
Qed.

Lemma dispatch_all_invariant {W : Type} `{!NodeEnv W}
    (strip : jsstring → jsstring) wd (P : DialogState → Prop) (Q : Event → Prop) :
  (∀ (w : W) st ev, Q ev → P st → P (dispatch strip w wd st ev).1.2) →
  ∀ evs (w : W) st, Forall Q evs → P st → P (dispatch_all strip w wd st evs).
Proof.
  intros Hstep. induction evs as [|ev evs IH]; intros w st Hevs HP; [done|].
  apply Forall_cons in Hevs as [Hev Hevs]. cbn [dispatch_all].
  pose proof (Hstep w st ev Hev HP) as HP1.
  destruct (dispatch strip w wd st ev) as [[w1 st1] effects]. by apply IH.
Qed.

(** X13: a product name that is trimmed and not empty stays trimmed and not
    empty through every run of key events and row activations: the dialog
    cannot make the name empty or leave white space around it. *)
Theorem X13_name_stays_trimmed {W : Type} `{!NodeEnv W}
    (strip : jsstring → jsstring) (w : W) wd st evs :
  name_trimmed (settings st) →
  name_trimmed (settings (dispatch_all strip w wd st evs)).
Proof.
  intros Hname.
  apply (dispatch_all_invariant strip wd (λ st, name_trimmed (settings st))
           (λ _, True)); [|by apply Forall_true|done].
  clear. intros w st ev _ [Htrim Hne]. unfold name_trimmed.
  destruct ev as [key|value]; cbn [dispatch fst snd].
  - destruct (handleKeypress_name strip w wd st key) as [->|[-> Hne']]; [done|].
    split; [apply js_trim_idemp|done].
  - destruct (handleSettingSelect_keeps st value) as [-> _]. done.
Qed.

Lemma X13_name_stays_trimmed_witness :
  name_trimmed (settings
    (dispatch_all stripControlCharacters empty_fs project_dir initial_state
       [SelectEvent "name"; KeyEvent (paste_key (js "  x "));
        KeyEvent (plain_key "return" [13])])).
Proof.
  apply (X13_name_stays_trimmed stripControlCharacters empty_fs project_dir
           initial_state). split; [reflexivity|discriminate].
Defined.

(** X14: no run of key events and row activations changes the style
    reference URL: the dialog has no way to edit it. *)
Theorem X14_style_reference_url_untouched {W : Type} `{!NodeEnv W}
    (strip : jsstring → jsstring) (w : W) wd st evs :
  styleReferenceUrl (settings (dispatch_all strip w wd st evs))
  = styleReferenceUrl (settings st).
Proof.
  apply (dispatch_all_invariant strip wd
           (λ st', styleReferenceUrl (settings st') = styleReferenceUrl (settings st))
           (λ _, True)); [|by apply Forall_true|done].
  intros w0 st0 ev _ <-. destruct ev as [key|value]; cbn [dispatch fst snd].
  - by destruct (handleKeypress_keeps strip w0 wd st0 key) as [-> _].
  - by destruct (handleSettingSelect_keeps st0 value) as [_ ->].
Qed.

(** ** Modules and platform *)

Lemma handleSettingSelect_modules st value :
  modules (settings (handleSettingSelect value st)) = modules (settings st) ∨
  modules (settings (handleSettingSelect value st))
    = toggleModule (js "sqlite") (modules (settings st)) ∨
  modules (settings (handleSettingSelect value st))
    = toggleModule (js "i18n") (modules (settings st)).
Proof.
  unfold handleSettingSelect.
  repeat match goal with
    | |- context [if ?c then _ else _] => destruct c eqn:?
    end; auto.
Qed.

(** X15: through every run of key events and row activations, a module other
    than sqlite and i18n occurs in the modules exactly as often as at the
    start: what a settings file brought in besides the two known modules is
    neither dropped nor repeated. *)
Theorem X15_other_modules_kept {W : Type} `{!NodeEnv W}
    (strip : jsstring → jsstring) (w : W) wd st evs x :
  x ≠ js "sqlite" → x ≠ js "i18n" →
  occurrences x (modules (settings (dispatch_all strip w wd st evs)))
  = occurrences x (modules (settings st)).
Proof.
  intros Hs Hi.
  apply (dispatch_all_invariant strip wd
           (λ st', occurrences x (modules (settings st'))
                   = occurrences x (modules (settings st)))
           (λ _, True)); [|by apply Forall_true|done].
  intros w0 st0 ev _ <-. destruct ev as [key|value]; cbn [dispatch fst snd].
  - by destruct (handleKeypress_keeps strip w0 wd st0 key) as (_ & _ & ->).
  - destruct (handleSettingSelect_modules st0 value) as [->|[->| ->]];
      [done|by apply occurrences_toggle_other..].
Qed.

Lemma X15_other_modules_kept_witness :
  occurrences (js "auth")
    (modules (settings
       (dispatch_all stripControlCharacters empty_fs project_dir
          (setSettings (λ _, mkSettings (js "app") [] Linux [js "auth"; js "sqlite"])
             initial_state)
          [SelectEvent "module-sqlite"; SelectEvent "module-i18n"]))) = 1%nat.
Proof.
  rewrite (X15_other_modules_kept stripControlCharacters empty_fs project_dir
             (setSettings (λ _, mkSettings (js "app") [] Linux [js "auth"; js "sqlite"])
                initial_state)
             [SelectEvent "module-sqlite"; SelectEvent "module-i18n"] (js "auth"));
    [reflexivity|discriminate|discriminate].
Defined.

(** X16: modules without duplicates stay without duplicates through every
    run of key events and row activations; from the defaults the dialog never
    produces a duplicate. *)
Theorem X16_modules_stay_duplicate_free {W : Type} `{!NodeEnv W}
    (strip : jsstring → jsstring) (w : W) wd st evs :
  NoDup (modules (settings st)) →
  NoDup (modules (settings (dispatch_all strip w wd st evs))).
Proof.
  intros Hnodup.
  apply (dispatch_all_invariant strip wd (λ st', NoDup (modules (settings st')))
           (λ _, True)); [|by apply Forall_true|done].
  clear. intros w st ev _ Hnodup. destruct ev as [key|value]; cbn [dispatch fst snd].
  - by destruct (handleKeypress_keeps strip w wd st key) as (_ & _ & ->).
  - destruct (handleSettingSelect_modules st value) as [->|[->| ->]];
      [done|by apply NoDup_toggleModule..].
Qed.

Lemma X16_modules_stay_duplicate_free_witness :
  NoDup (modules (settings
    (dispatch_all stripControlCharacters empty_fs project_dir initial_state
       [SelectEvent "module-sqlite"; SelectEvent "module-i18n";
        SelectEvent "module-sqlite"]))).
Proof.
  apply (X16_modules_stay_duplicate_free stripControlCharacters empty_fs project_dir
           initial_state). constructor.
Defined.

Lemma toggleModule_flips m l : m ∈ toggleModule m l ↔ m ∉ l.
Proof.
  unfold toggleModule. case_bool_decide as Hin.
  - rewrite list_elem_of_filter. split; [by intros [Hne _]|done].
  - rewrite elem_of_app, list_elem_of_singleton. split; [done|]. intros _. by right.
Qed.

Lemma toggleModule_other m x l : x ≠ m → x ∈ toggleModule m l ↔ x ∈ l.
Proof.
  intros Hne. unfold toggleModule. case_bool_decide as Hin.
  - rewrite list_elem_of_filter. tauto.
  - rewrite elem_of_app, list_elem_of_singleton. tauto.
Qed.

(** X17: in navigating mode, activating a module row flips the check box
    that the row shows and leaves every other row's label as it was. *)
Theorem X17_module_row_flips_check_box
    (inverse : jsstring → jsstring) (cursorVisible : bool) st :
  editing st = false →
  let items := settingItems inverse cursorVisible st in
  let sqlite := settingItems inverse cursorVisible (handleSettingSelect "module-sqlite" st) in
  let i18n := settingItems inverse cursorVisible (handleSettingSelect "module-i18n" st) in
  item_label <$> sqlite !! 3%nat =
    Some (checkbox_glyph (negb (bool_decide (js "sqlite" ∈ modules (settings st))))
          ++ js " Module: SQLite") ∧
  item_label <$> i18n !! 4%nat =
    Some (checkbox_glyph (negb (bool_decide (js "i18n" ∈ modules (settings st))))
          ++ js " Module: i18n (English & Chinese)") ∧
  (∀ i, i ≠ 3%nat → sqlite !! i = items !! i) ∧
  (∀ i, i ≠ 4%nat → i18n !! i = items !! i).
Proof.
  intros Hed items sqlite i18n. subst items sqlite i18n.
  unfold handleSettingSelect. rewrite Hed.
  cbn [String.eqb Ascii.eqb Bool.eqb].
  unfold settingItems, setSettings, withModules.
  cbn [settings editingField name platform modules lookup list_lookup fmap option_fmap
       option_map item_label].
  assert (∀ m l, bool_decide (m ∈ toggleModule m l) = negb (bool_decide (m ∈ l)))
    as Hflip.
  { intros m l. pose proof (toggleModule_flips m l).
    repeat case_bool_decide; simpl; tauto. }
  assert (∀ m x l, x ≠ m → bool_decide (x ∈ toggleModule m l) = bool_decide (x ∈ l))
    as Hother.
  { intros m x l Hne. pose proof (toggleModule_other m x l Hne).
    repeat case_bool_decide; tauto. }
  rewrite !Hflip.
  rewrite (Hother (js "sqlite") (js "i18n")) by discriminate.
  rewrite (Hother (js "i18n") (js "sqlite")) by discriminate.
  repeat split.
  - intros [|[|[|[|[|i]]]]] Hi; try done.
  - intros [|[|[|[|[|i]]]]] Hi; try done.
Qed.

Lemma X17_module_row_flips_check_box_witness :
  item_label <$> settingItems (λ s, s) true
                   (handleSettingSelect "module-sqlite" initial_state) !! 3%nat
  = Some (0x2611 :: js " Module: SQLite").
Proof.
  apply (X17_module_row_flips_check_box (λ s, s) true initial_state). reflexivity.
Defined.

(** X18: in navigating mode activating a platform row makes that row show
    the selected glyph and the other platform row the unselected one,
    whatever the platform was before; activating the same row again changes
    nothing, and of two activations the later one decides. *)
Theorem X18_activating_a_platform_row_selects_it
    (inverse : jsstring → jsstring) (cursorVisible : bool) st :
  let rows st := (item_label <$> settingItems inverse cursorVisible st !! 1%nat,
                  item_label <$> settingItems inverse cursorVisible st !! 2%nat) in
  let windows := (Some (js "Platform: Windows " ++ [0x25CF]),
                  Some (js "Platform: Linux " ++ [0x25CB])) in
  let linux := (Some (js "Platform: Windows " ++ [0x25CB]),
                Some (js "Platform: Linux " ++ [0x25CF])) in
  editing st = false →
  windows ≠ linux ∧
  rows (handleSettingSelect "platform-windows" st) = windows ∧
  rows (handleSettingSelect "platform-linux" st) = linux ∧
  handleSettingSelect "platform-windows" (handleSettingSelect "platform-windows" st)
    = handleSettingSelect "platform-windows" st ∧
  handleSettingSelect "platform-linux" (handleSettingSelect "platform-linux" st)
    = handleSettingSelect "platform-linux" st ∧
  handleSettingSelect "platform-linux" (handleSettingSelect "platform-windows" st)
    = handleSettingSelect "platform-linux" st ∧
  handleSettingSelect "platform-windows" (handleSettingSelect "platform-linux" st)
    = handleSettingSelect "platform-windows" st.
Proof.
  intros rows windows linux Hed. subst rows windows linux. cbv beta.
  split; [discriminate|].
  destruct st as [s focus index [field|] buffer cursor]; [discriminate|].
  repeat split.
Qed.

Lemma X18_activating_a_platform_row_selects_it_witness :
  item_label <$> settingItems (λ s, s) true
                   (handleSettingSelect "platform-linux" initial_state) !! 2%nat
  = Some (js "Platform: Linux " ++ [0x25CF]).
Proof.
  destruct (X18_activating_a_platform_row_selects_it (λ s, s) true initial_state)
    as (_ & _ & Hlinux & _); [reflexivity|].
  exact (f_equal snd Hlinux).
Defined.

(** ** The rendered field *)

Lemma js_slice_one {A} (l : list A) (p : Z) (x : A) :
  0 ≤ p → l !! Z.to_nat p = Some x → js_slice l p (Some (p + 1)) = [x].
Proof.
  intros Hp Hx. pose proof (lookup_lt_Some _ _ _ Hx) as Hlt.
  unfold js_slice.
  destruct (Z.ltb_spec p 0); [lia|]. destruct (Z.ltb_spec (p + 1) 0); [lia|].
  replace (Z.min p (Z.of_nat (length l))) with p by lia.
  replace (Z.min (p + 1) (Z.of_nat (length l)) - p) with 1 by lia.
  by rewrite (drop_S _ _ _ Hx).
Qed.

(** X19: what [renderFieldValue] shows for a field being edited.  With the
    cursor visible and inside the buffer, the highlighted text is exactly the
    code point under the cursor, whole, and the text around it is the rest of
    the buffer, so that the pieces put together give the buffer; with the
    cursor at or past the end, a highlighted space follows the buffer; with
    the cursor hidden the buffer is shown as it is.  A field that is not
    being edited shows its value. *)
Theorem X19_render_highlights_the_code_point_at_the_cursor
    (inverse : jsstring → jsstring) st value :
  0 ≤ editCursorPos st →
  (editCursorPos st < cpLen (editBuffer st) →
     ∃ c, toCodePoints (editBuffer st) !! Z.to_nat (editCursorPos st) = Some c ∧
          renderFieldValue inverse true st value true
          = cpSlice (editBuffer st) 0 (Some (editCursorPos st)) ++ inverse c
            ++ cpSlice (editBuffer st) (editCursorPos st + 1) None ∧
          cpSlice (editBuffer st) 0 (Some (editCursorPos st)) ++ c
            ++ cpSlice (editBuffer st) (editCursorPos st + 1) None = editBuffer st) ∧
  (cpLen (editBuffer st) ≤ editCursorPos st →
     renderFieldValue inverse true st value true = editBuffer st ++ inverse (js " ")) ∧
  renderFieldValue inverse false st value true = editBuffer st ∧
  (∀ cursorVisible, renderFieldValue inverse cursorVisible st value false = value).
Proof.
  intros Hp. unfold renderFieldValue. cbn [andb]. split; [|split; [|done]].
  - intros Hlt.
    destruct (toCodePoints (editBuffer st) !! Z.to_nat (editCursorPos st)) as [c|] eqn:Hc.
    + exists c. split; [done|].
      apply Z.ltb_lt in Hlt as Hlt'. rewrite Hlt'.
      assert (cpSlice (editBuffer st) (editCursorPos st) (Some (editCursorPos st + 1)) = c)
        as ->.
      { unfold cpSlice. rewrite (js_slice_one _ _ c) by done. simpl. apply app_nil_r. }
      split; [done|].
      unfold cpSlice. rewrite js_slice_prefix, js_slice_suffix by lia.
      replace (Z.to_nat (editCursorPos st + 1)) with (S (Z.to_nat (editCursorPos st)))
        by lia.
      pose proof (f_equal (@concat Z) (list.take_drop_middle _ _ _ Hc)) as Hsplit.
      rewrite concat_app, concat_toCodePoints in Hsplit. exact Hsplit.
    + apply lookup_ge_None in Hc. unfold cpLen in Hlt. lia.
  - intros Hge.
    replace (editCursorPos st <? cpLen (editBuffer st)) with false
      by (symmetry; apply Z.ltb_ge; lia).
    by replace (cpLen (editBuffer st) <=? editCursorPos st) with true
      by (symmetry; apply Z.leb_le; lia).
Qed.

Lemma X19_render_highlights_the_code_point_at_the_cursor_witness :
  renderFieldValue (λ s, 91 :: s ++ [93]) true
    (editing_state (97 :: grinning_face ++ [98]) 1) [] true
  = 97 :: 91 :: grinning_face ++ [93; 98].
Proof.
  destruct (X19_render_highlights_the_code_point_at_the_cursor (λ s, 91 :: s ++ [93])
              (editing_state (97 :: grinning_face ++ [98]) 1) [])
    as [Hinside _]; [vm_compute; discriminate|].
  destruct Hinside as (c & Hc & Hrender & _); [reflexivity|].
  rewrite Hrender. injection Hc as <-. reflexivity.
Defined.

(** ** Well-formed strings through a run *)

Lemma commitEdit_well_formed st :
  well_formed (editBuffer st) = true → well_formed (name (settings st)) = true →
  well_formed (editBuffer (commitEdit st)) = true ∧
  well_formed (name (settings (commitEdit st))) = true.
Proof.
  intros Hb Hn. unfold commitEdit. destruct (editingField st) as [[]|]; [|done].
  destruct (negb (truthy (js_trim (editBuffer st)))); [done|].
  split; [done|]. by apply well_formed_trim.
Qed.

Lemma well_formed_insert b x p :
  well_formed b = true → well_formed x = true → 0 ≤ p →
  well_formed (cpSlice b 0 (Some p) ++ x ++ cpSlice b p None) = true.
Proof.
  intros Hb Hx Hp. destruct (well_formed_cpSlice b p p) as [? ?]; [done..|].
  by repeat apply well_formed_app.
Qed.

Lemma well_formed_remove b p q :
  well_formed b = true → 0 ≤ p → 0 ≤ q →
  well_formed (cpSlice b 0 (Some p) ++ cpSlice b q None) = true.
Proof.
  intros Hb Hp Hq. destruct (well_formed_cpSlice b p q) as [? ?]; [done..|].
  by apply well_formed_app.
Qed.

Lemma dispatch_well_formed {W : Type} `{!NodeEnv W}
    (strip : jsstring → jsstring) (w : W) wd st ev :
  sanitized_well_formed strip ev →
  session_invariant st ∧ well_formed (editBuffer st) = true
    ∧ well_formed (name (settings st)) = true →
  session_invariant (dispatch strip w wd st ev).1.2
  ∧ well_formed (editBuffer (dispatch strip w wd st ev).1.2) = true
  ∧ well_formed (name (settings (dispatch strip w wd st ev).1.2)) = true.
Proof.
  intros Hev (Hinv & Hb & Hn). split.
  { destruct ev as [key|value]; cbn [dispatch fst snd].
    - by apply handleKeypress_invariant.
    - by apply handleSettingSelect_invariant. }
  destruct Hinv as [_ [Hlo Hhi]].
  destruct ev as [key|value]; cbn [dispatch fst snd].
  - simpl in Hev. unfold handleKeypress.
    repeat match goal with
      | |- context [if ?c then _ else _] => destruct c eqn:?
      | |- context [match focusMode ?s with _ => _ end] => destruct (focusMode s) eqn:?
      | |- context [saveSettings ?w ?wd ?s] =>
          destruct (saveSettings w wd s) as [? ?] eqn:?
      end;
      cbn [fst snd editBuffer settings name setEditCursorPos setEditBuffer setFocusMode
           setActionIndex closeSession setEditingField];
      try (split; done).
    + split; [by apply well_formed_insert|done].
    + split; [|done]. apply well_formed_remove; [done|lia..].
    + split; [|done]. apply well_formed_remove; [done|lia..].
    + by apply commitEdit_well_formed.
    + split; [by apply well_formed_insert|done].
  - unfold handleSettingSelect.
    repeat match goal with
      | |- context [if ?c then _ else _] => destruct c eqn:?
      end; done.
Qed.

(** X20: from a state whose buffer and product name have no unpaired
    surrogate, every run of events whose sanitized key sequences have none
    ends in such a state: the dialog never cuts a surrogate pair in two, in
    the buffer or in the name it commits. *)
Theorem X20_strings_stay_well_formed {W : Type} `{!NodeEnv W}
    (strip : jsstring → jsstring) (w : W) wd st evs :
  Forall (sanitized_well_formed strip) evs →
  session_invariant st →
  well_formed (editBuffer st) = true → well_formed (name (settings st)) = true →
  well_formed (editBuffer (dispatch_all strip w wd st evs)) = true ∧
  well_formed (name (settings (dispatch_all strip w wd st evs))) = true.
Proof.
  intros Hevs Hinv Hb Hn.
  apply (dispatch_all_invariant strip wd
           (λ st, session_invariant st ∧ well_formed (editBuffer st) = true
                  ∧ well_formed (name (settings st)) = true)
           (sanitized_well_formed strip)); [|done|done].
  intros w0 st0 ev Hev HP. by apply dispatch_well_formed.
Qed.

Lemma X20_strings_stay_well_formed_witness :
  well_formed (name (settings
    (dispatch_all stripControlCharacters empty_fs project_dir initial_state
       [SelectEvent "name"; KeyEvent (paste_key grinning_face);
        KeyEvent (plain_key "left" []); KeyEvent (plain_key "backspace" [127]);
        KeyEvent (plain_key "return" [13])]))) = true.
Proof.
  apply (X20_strings_stay_well_formed stripControlCharacters empty_fs project_dir
           initial_state).
  - repeat constructor.
  - split; [split; [intros Hf; by destruct Hf|discriminate]
           |split; vm_compute; discriminate].
  - reflexivity.
  - reflexivity.
Defined.

(** ** Load and save together *)

Lemma mapM_as_string l : mapM as_string (JStr <$> l) = Some l.
Proof.
  induction l as [|x l IH]; [done|].
  rewrite fmap_cons. cbn [mapM as_string mbind option_bind]. by rewrite IH.
Qed.

Lemma as_platform_value p : as_platform (platform_value p) = Some p.
Proof. by destruct p. Qed.

(** A settings object spread over any other reads back as the settings. *)
Lemma as_settings_object (s : ProductSettings) (m : gmap jsstring jsvalue) :
  as_settings (settings_object s ∪ m) = Some s.
Proof.
  unfold as_settings.
  assert (∀ k v, settings_object s !! k = Some v →
                 (settings_object s ∪ m) !! k = Some v) as Hl
    by (intros k v; apply lookup_union_Some_l).
  rewrite (Hl (js "name") (JStr (name s))) by done.
  rewrite (Hl (js "styleReferenceUrl") (JStr (styleReferenceUrl s))) by done.
  rewrite (Hl (js "platform") (platform_value (platform s))) by done.
  rewrite (Hl (js "modules") (JArr (JStr <$> modules s))) by done.
  simpl. rewrite as_platform_value. simpl. rewrite mapM_as_string. simpl.
  by destruct s.
Qed.

(** X21: whatever the settings file holds, the object that the load effect
    hands to [setSettings] has a value for every field of the defaults: a
    file can replace fields and add keys, it cannot remove a field. *)
Theorem X21_load_keeps_every_field {W : Type} `{!NodeEnv W} (w : W) wd merged k :
  (loadSettings w wd).1 = Some merged →
  is_Some (settings_object DEFAULT_SETTINGS !! k) → is_Some (merged !! k).
Proof.
  unfold loadSettings.
  destruct (existsSync w _); [|discriminate].
  destruct (readFileSync w _) as [content|]; [|discriminate].
  destruct (JSON_parse content) as [loaded|]; [|discriminate].
  intros [= <-] [v Hv]. unfold spread.
  destruct (own_properties loaded !! k) as [v'|] eqn:Hk.
  - exists v'. by apply lookup_union_Some_l.
  - exists v. by rewrite lookup_union_r.
Qed.

Lemma X21_load_keeps_every_field_witness :
  is_Some (spread (settings_object DEFAULT_SETTINGS)
             (JObj [(js "platform", JStr (js "Linux"))]) !! js "modules").
Proof.
  apply (X21_load_keeps_every_field linux_fs project_dir); [reflexivity|].
  by eexists.
Defined.

(** X22: what Apply saves is what the next mount loads.  When [saveSettings]
    reports the settings, the load effect on the file system it leaves reads
    those settings back, provided [path.join] nests, a written file exists,
    and [JSON.parse] of the serialization returns an object with the four
    properties of the settings. *)
Theorem X22_save_then_load {W : Type} `{!NodeEnv W} `{!NodeEnvLaws W}
    (w w' : W) wd st v :
  path_join [path_join [wd; js ".aaagent"]; js "product-settings.json"]
    = path_join [wd; js ".aaagent"; js "product-settings.json"] →
  (∀ (w1 w2 : W) file content,
     writeFileSync w1 file content = (Normal (), w2) → existsSync w2 file = true) →
  JSON_parse (JSON_stringify (settings st)) = Normal v →
  own_properties v = settings_object (settings st) →
  saveSettings w wd st = (w', [OnSelect (Some (settings st))]) →
  settings_after_load w' wd = Some (settings st).
Proof.
  intros Hjoin Hexists Hparse Hprops Hsave.
  assert (∃ w1, writeFileSync w1
                  (path_join [wd; js ".aaagent"; js "product-settings.json"])
                  (JSON_stringify (settings st)) = (Normal (), w')) as [w1 Hwrite].
  { unfold saveSettings in Hsave. rewrite Hjoin in Hsave.
    destruct (negb (existsSync w _)).
    - destruct (mkdirSync_recursive w _) as [[[]|] w1]; [|discriminate].
      exists w1. destruct (writeFileSync w1 _ _) as [[[]|] w2]; [|discriminate].
      by injection Hsave as ->.
    - exists w. destruct (writeFileSync w _ _) as [[[]|] w2]; [|discriminate].
      by injection Hsave as ->. }
  unfold settings_after_load, loadSettings.
  rewrite (Hexists _ _ _ _ Hwrite), (writeFileSync_read _ _ _ _ Hwrite), Hparse.
  cbn [fst]. unfold spread. rewrite Hprops. apply as_settings_object.
Qed.

#[local] Instance RecordEnvLaws : @NodeEnvLaws MemFS RecordEnv.
Proof.
  split.
  - intros w w' dir. simpl. destruct (mem_writable w); [|discriminate].
    intros [= <-]. simpl. rewrite bool_decide_eq_true_2; [done|by left].
  - intros w w' file content. simpl. destruct (mem_writable w); [|discriminate].
    intros [= <-]. simpl. by rewrite lookup_insert_eq.
  - intros w w' file content other. simpl. destruct (mem_writable w); [|discriminate].
    intros [= <-]. simpl. intros Hex.
    apply orb_true_iff in Hex as [Hd|Hf]; apply orb_true_iff; [by left|right].
    apply bool_decide_eq_true in Hf. apply bool_decide_eq_true.
    destruct (decide (file = other)) as [->|Hne].
    + rewrite lookup_insert_eq. by eexists.
    + by rewrite lookup_insert_ne.
Qed.

Lemma X22_save_then_load_witness :
  @settings_after_load MemFS RecordEnv
    (@saveSettings MemFS RecordEnv empty_fs project_dir initial_state).1 project_dir
  = Some DEFAULT_SETTINGS.
Proof.
  apply (@X22_save_then_load MemFS RecordEnv RecordEnvLaws empty_fs _ project_dir
           initial_state
           (JObj [(js "name", JStr (js "new-project"));
                  (js "styleReferenceUrl", JStr []);
                  (js "platform", JStr (js "Windows"));
                  (js "modules", JArr [])])).
  - reflexivity.
  - intros w1 w2 file content. simpl. destruct (mem_writable w1); [|discriminate].
    intros [= <-]. simpl. apply orb_true_iff. right.
    apply bool_decide_eq_true. rewrite lookup_insert_eq. by eexists.
  - reflexivity.
  - reflexivity.
  - reflexivity.
Defined.

(** ** useProductSettingsCommand *)

(** X23: after any sequence of calls of the two callbacks of the hook, the
    dialog is open exactly when the last call was [openProductSettingsDialog];
    with no call it is closed.  Opening twice or closing twice changes
    nothing. *)
Theorem X23_hook_follows_last_call (calls : list HookCall) :
  hookRun calls = match last calls with Some CallOpen => true | _ => false end.
Proof.
  unfold hookRun. destruct calls as [|c calls _] using rev_ind; [done|].
  rewrite foldl_app, last_snoc. by destruct c.
Qed.

(** ** initProductCommand *)

(** X24: without a configuration, or when [GEMINI.md] already exists in the
    target directory, the action returns a message (an error, respectively
    an info), leaves the file system as it is, adds no UI item and submits no
    prompt: an existing file is never overwritten. *)
Theorem X24_init_product_leaves_existing_file {W : Type} `{!NodeEnv W}
    (prompt : jsstring) (now : Z) (w : W) config :
  (config = None →
     initProductAction prompt now w config
     = (Normal (ReturnMessage MessageError (js "Configuration not available.")), w, [])) ∧
  (∀ dir, config = Some dir → existsSync w (path_join [dir; js "GEMINI.md"]) = true →
     initProductAction prompt now w config
     = (Normal (ReturnMessage MessageInfo
          (js "A GEMINI.md file already exists in this directory. No changes were made.")),
        w, [])).
Proof.
  split.
  - by intros ->.
  - intros dir -> Hex. unfold initProductAction. by rewrite Hex.
Qed.

(** X25: the action submits the prompt exactly when the target directory is
    configured, [GEMINI.md] does not exist yet and writing it succeeds; then
    the file was written with empty content and one info item with the
    current time was added.  When the write throws, the action throws and
    adds no item. *)
Theorem X25_init_product_prompt_iff_created {W : Type} `{!NodeEnv W}
    (prompt : jsstring) (now : Z) (w : W) config r w' items :
  initProductAction prompt now w config = (r, w', items) →
  ((∃ p, r = Normal (ReturnSubmitPrompt p)) ↔
   (∃ dir, config = Some dir ∧
           existsSync w (path_join [dir; js "GEMINI.md"]) = false ∧
           writeFileSync w (path_join [dir; js "GEMINI.md"]) [] = (Normal (), w'))) ∧
  ((∃ p, r = Normal (ReturnSubmitPrompt p)) →
     r = Normal (ReturnSubmitPrompt prompt) ∧
     ∃ text, items = [mkUiItem "info" text now]) ∧
  (r = Throws →
     items = [] ∧
     ∃ dir, config = Some dir ∧
            writeFileSync w (path_join [dir; js "GEMINI.md"]) [] = (Throws, w')).
Proof.
  unfold initProductAction. destruct config as [dir|].
  - destruct (existsSync w _) eqn:Hex.
    + intros [= <- <- <-]. split; [split|split].
      * intros [p Hp]. discriminate.
      * intros (dir' & [= <-] & Hex' & _). congruence.
      * intros [p Hp]. discriminate.
      * discriminate.
    + destruct (writeFileSync w _ _) as [[[]|] w1] eqn:Hwr; intros [= <- <- <-].
      * split; [split|split].
        -- intros _. by exists dir.
        -- intros _. by eexists.
        -- intros _. split; [done|]. by eexists.
        -- discriminate.
      * split; [split|split].
        -- intros [p Hp]. discriminate.
        -- intros (dir' & [= <-] & _ & Hwr'). congruence.
        -- intros [p Hp]. discriminate.
        -- intros _. split; [done|]. by exists dir.
  - intros [= <- <- <-]. split; [split|split].
    + intros [p Hp]. discriminate.
    + intros (dir' & Hdir & _). discriminate.
    + intros [p Hp]. discriminate.
    + discriminate.
Qed.

Lemma X25_init_product_prompt_iff_created_witness :
  ∃ text,
    (initProductAction (js "prompt") 7 empty_fs (Some project_dir)).2
    = [mkUiItem "info" text 7].
Proof.
  destruct (X25_init_product_prompt_iff_created (js "prompt") 7 empty_fs
              (Some project_dir) (Normal (ReturnSubmitPrompt (js "prompt")))
              (initProductAction (js "prompt") 7 empty_fs (Some project_dir)).1.2
              (initProductAction (js "prompt") 7 empty_fs (Some project_dir)).2)
    as (_ & Hitems & _); [reflexivity|].
  destruct Hitems as [_ Htext]; [by eexists|]. exact Htext.
Defined.

(** X26: running the action again after it created [GEMINI.md] changes
    nothing: on the file system the first run leaves, the second run finds
    the file, reports that it exists and neither writes nor adds an item.
    This relies on a written file existing afterwards. *)
Theorem X26_init_product_second_run {W : Type} `{!NodeEnv W}
    (prompt : jsstring) (now now' : Z) (w w' : W) config items :
  (∀ (w1 w2 : W) file content,
     writeFileSync w1 file content = (Normal (), w2) → existsSync w2 file = true) →
  initProductAction prompt now w config
    = (Normal (ReturnSubmitPrompt prompt), w', items) →
  initProductAction prompt now' w' config
  = (Normal (ReturnMessage MessageInfo
       (js "A GEMINI.md file already exists in this directory. No changes were made.")),
     w', []).
Proof.
  intros Hexists. unfold initProductAction. destruct config as [dir|]; [|discriminate].
  destruct (existsSync w _); [discriminate|].
  destruct (writeFileSync w _ _) as [[[]|] w1] eqn:Hwr; [|discriminate].
  intros [= <- _]. by rewrite (Hexists _ _ _ _ Hwr).
Qed.

Lemma X26_init_product_second_run_witness :
  initProductAction (js "prompt") 8
    (initProductAction (js "prompt") 7 empty_fs (Some project_dir)).1.2
    (Some project_dir)
  = (Normal (ReturnMessage MessageInfo
       (js "A GEMINI.md file already exists in this directory. No changes were made.")),
     (initProductAction (js "prompt") 7 empty_fs (Some project_dir)).1.2, []).
Proof.
  apply (X26_init_product_second_run (js "prompt") 7 8 empty_fs _ (Some project_dir)
           [mkUiItem "info"
              (js "Empty GEMINI.md created. Now initializing Go + React monolithic project...")
              7]).
  - intros w1 w2 file content. simpl. destruct (mem_writable w1); [|discriminate].
    intros [= <-]. simpl. apply orb_true_iff. right.
    apply bool_decide_eq_true. rewrite lookup_insert_eq. by eexists.
  - reflexivity.
Defined.

Lemma X24_init_product_leaves_existing_file_witness :
  initProductAction (js "prompt") 7 linux_fs None
  = (Normal (ReturnMessage MessageError (js "Configuration not available.")),
     linux_fs, []) ∧
  initProductAction (js "prompt") 7
    (mkMemFS [] {[ js "/proj/GEMINI.md" := js "notes" ]} true) (Some project_dir)
  = (Normal (ReturnMessage MessageInfo
       (js "A GEMINI.md file already exists in this directory. No changes were made.")),
     mkMemFS [] {[ js "/proj/GEMINI.md" := js "notes" ]} true, []).
Proof.
  split.
  - by apply (X24_init_product_leaves_existing_file (js "prompt") 7 linux_fs None).
  - apply (X24_init_product_leaves_existing_file (js "prompt") 7
             (mkMemFS [] {[ js "/proj/GEMINI.md" := js "notes" ]} true)
             (Some project_dir) ) with (dir := project_dir); reflexivity.
Defined.
